(** * pyawg: the validated command dispatch of the Rigol DG1000Z and
      Siglent SDG1000X drivers

    A shallow embedding of [pyawg/enums.py], [pyawg/rigol.py] and
    [pyawg/siglent.py].  Every method of the two driver classes is a Python
    [if]/[elif] chain of argument checks followed by one [try]/[except] block
    that formats a command, hands it to the transport of the base class and
    logs the outcome.  The embedding keeps that shape: Python objects are a
    tagged union, a method is a computation over the state of the connection
    and the trace of what was handed to the transport and to [logging].
    A Python [str] is kept as the string of its UTF-8 bytes. *)

From Stdlib Require Import ZArith String Ascii List Lia Bool DecimalString.
From Stdlib Require Import Floats.SpecFloat.
From stdpp Require Import base gmap strings.

Local Open Scope Z_scope.

(** ** enums.py *)

Module AmplitudeUnit.
Inductive t := VPP | VRMS | DBM.
Definition value (u : t) : string :=
  match u with VPP => "VPP" | VRMS => "VRMS" | DBM => "DBM" end.
Definition name (u : t) : string :=
  match u with VPP => "VPP" | VRMS => "VRMS" | DBM => "DBM" end.
End AmplitudeUnit.

Module FrequencyUnit.
Inductive t := HZ | KHZ | MHZ.
Definition value (u : t) : string :=
  match u with HZ => "HZ" | KHZ => "KHZ" | MHZ => "MHZ" end.
Definition name (u : t) : string :=
  match u with HZ => "HZ" | KHZ => "KHZ" | MHZ => "MHZ" end.
Definition eqb (a b : t) : bool :=
  match a, b with HZ, HZ | KHZ, KHZ | MHZ, MHZ => true | _, _ => false end.
End FrequencyUnit.

Module Polarity.
Inductive t := NORMAL | INVERTED.
Definition value (p : t) : string :=
  match p with NORMAL => "NORM" | INVERTED => "INVT" end.
Definition name (p : t) : string :=
  match p with NORMAL => "NORMAL" | INVERTED => "INVERTED" end.
End Polarity.

Module BurstModeRigol.
Inductive t := TRIGGERED | INFINITY | GATED.
Definition value (m : t) : string :=
  match m with TRIGGERED => "TRIG" | INFINITY => "INF" | GATED => "GAT" end.
Definition name (m : t) : string :=
  match m with
  | TRIGGERED => "TRIGGERED" | INFINITY => "INFINITY" | GATED => "GATED"
  end.
End BurstModeRigol.

Module BurstModeSiglent.
Inductive t := NCYC | GATE.
Definition value (m : t) : string :=
  match m with NCYC => "NCYC" | GATE => "GATE" end.
Definition name (m : t) : string :=
  match m with NCYC => "NCYC" | GATE => "GATE" end.
End BurstModeSiglent.

Module BurstTriggerSource.
Inductive t := INTERNAL | EXTERNAL | MANUAL.
Definition value (s : t) : string :=
  match s with INTERNAL => "INT" | EXTERNAL => "EXT" | MANUAL => "MAN" end.
Definition name (s : t) : string :=
  match s with
  | INTERNAL => "INTERNAL" | EXTERNAL => "EXTERNAL" | MANUAL => "MANUAL"
  end.
End BurstTriggerSource.

Module WaveformType.
Inductive t := SINE | SQUARE | RAMP | PULSE | NOISE | DC | ARB.
Definition value (w : t) : string :=
  match w with
  | SINE => "SIN" | SQUARE => "SQU" | RAMP => "RAMP" | PULSE => "PULS"
  | NOISE => "NOIS" | DC => "DC" | ARB => "ARB"
  end.
Definition name (w : t) : string :=
  match w with
  | SINE => "SINE" | SQUARE => "SQUARE" | RAMP => "RAMP" | PULSE => "PULSE"
  | NOISE => "NOISE" | DC => "DC" | ARB => "ARB"
  end.
End WaveformType.

(** Modelled from the spec: the declaration of [OutputLoad], which both
    drivers import from [enums.py], is missing from that file.  The drivers
    name two of its members, [OutputLoad.HZ] and [OutputLoad.INF] (the
    high-impedance / infinite-load sentinel of the spec); it is taken to be a
    plain [Enum] like every other class of [enums.py], with these two
    members.  The members' values are never read by the drivers. *)
Module OutputLoad.
Inductive t := HZ | INF.
Definition name (l : t) : string :=
  match l with HZ => "HZ" | INF => "INF" end.
Definition eqb (a b : t) : bool :=
  match a, b with HZ, HZ | INF, INF => true | _, _ => false end.
End OutputLoad.

(** ** Python objects

    What a caller can pass to a method.  [bool] is kept apart from [int]:
    the drivers test [type(x) is int], which [True] and [False] fail.  A
    float is an IEEE 754 binary64 number.  [PyObject] stands for an instance
    of any other class, given by the name of its class and its [str()]. *)

Inductive pyval :=
| PyNone
| PyBool (b : bool)
| PyInt (z : Z)
| PyFloat (f : spec_float)
| PyStr (s : string)
| PyAmplitudeUnit (u : AmplitudeUnit.t)
| PyFrequencyUnit (u : FrequencyUnit.t)
| PyPolarity (p : Polarity.t)
| PyBurstModeRigol (m : BurstModeRigol.t)
| PyBurstModeSiglent (m : BurstModeSiglent.t)
| PyBurstTriggerSource (s : BurstTriggerSource.t)
| PyWaveformType (w : WaveformType.t)
| PyOutputLoad (l : OutputLoad.t)
| PyObject (cls : string) (shown : string).

(** binary64 *)
Definition prec : Z := 53.
Definition emax : Z := 1024.

(** A Python float is always a well-formed binary64 number. *)
Definition is_float64 (f : spec_float) : bool := valid_binary prec emax f.

(** The exact conversion of a small [int] to [float], as done when an [int]
    meets a [float] in a comparison or a product.  Every [int] constant of
    the drivers (0, 10, -10, 360, 1000, 1000000) is exactly representable. *)
Definition float_of_int (z : Z) : spec_float := binary_normalize prec emax z 0 false.

(** [a <= b] and [a < b] on numbers; the drivers only compare after the
    type of the operand has been checked to be [int] or [float]. *)
Definition py_le (a b : pyval) : bool :=
  match a, b with
  | PyInt x, PyInt y => x <=? y
  | PyInt x, PyFloat g => SFleb (float_of_int x) g
  | PyFloat f, PyInt y => SFleb f (float_of_int y)
  | PyFloat f, PyFloat g => SFleb f g
  | _, _ => false
  end.

Definition py_lt (a b : pyval) : bool :=
  match a, b with
  | PyInt x, PyInt y => x <? y
  | PyInt x, PyFloat g => SFltb (float_of_int x) g
  | PyFloat f, PyInt y => SFltb f (float_of_int y)
  | PyFloat f, PyFloat g => SFltb f g
  | _, _ => false
  end.

(** [abs(x)] *)
Definition py_abs (a : pyval) : pyval :=
  match a with
  | PyInt x => PyInt (Z.abs x)
  | PyFloat f => PyFloat (SFabs f)
  | _ => a
  end.

(** [x * k] for an [int] constant [k] *)
Definition py_mul (a : pyval) (k : Z) : pyval :=
  match a with
  | PyInt x => PyInt (x * k)
  | PyFloat f => PyFloat (SFmul prec emax f (float_of_int k))
  | _ => a
  end.

(** [str()] of an [int]: its decimal digits, with a minus sign if negative.
    (CPython 3.11 and later refuse to convert an [int] of more than 4300
    digits; the embedding converts every [int].) *)
Definition str_int (z : Z) : string := NilZero.string_of_int (Z.to_int z).

(** [type(x)] as an f-string shows it *)
Definition type_repr (v : pyval) : string :=
  match v with
  | PyNone => "<class 'NoneType'>"
  | PyBool _ => "<class 'bool'>"
  | PyInt _ => "<class 'int'>"
  | PyFloat _ => "<class 'float'>"
  | PyStr _ => "<class 'str'>"
  | PyAmplitudeUnit _ => "<enum 'AmplitudeUnit'>"
  | PyFrequencyUnit _ => "<enum 'FrequencyUnit'>"
  | PyPolarity _ => "<enum 'Polarity'>"
  | PyBurstModeRigol _ => "<enum 'BurstModeRigol'>"
  | PyBurstModeSiglent _ => "<enum 'BurstModeSiglent'>"
  | PyBurstTriggerSource _ => "<enum 'BurstTriggerSource'>"
  | PyWaveformType _ => "<enum 'WaveformType'>"
  | PyOutputLoad _ => "<enum 'OutputLoad'>"
  | PyObject cls _ => "<class '" +:+ cls +:+ "'>"
  end.

(** ** Exceptions *)

(** [InvalidChannelNumber] comes from [exceptions.py], which is not part of
    the sources at hand; the drivers construct it from the offending channel.
    [IndexError] and [KeyError] are raised by the parsing of a query
    response.  [TransportError] is any other [Exception] that the transport
    raises, given by its class and message. *)
Inductive exn :=
| InvalidChannelNumber (channel : pyval)
| TypeError (msg : string)
| ValueError (msg : string)
| IndexError (msg : string)
| KeyError (key : string)
| TransportError (cls msg : string).

(** ** str methods used by the query parser *)

(** [s.split(sep)] for a one-character separator: never empty *)
Fixpoint split (sep : ascii) (s : string) : list string :=
  match s with
  | EmptyString => [EmptyString]
  | String c s' =>
      if Ascii.eqb c sep then EmptyString :: split sep s'
      else match split sep s' with
           | w :: ws => String c w :: ws
           | [] => [String c EmptyString]
           end
  end.

Fixpoint lstrip (c : ascii) (s : string) : string :=
  match s with
  | EmptyString => EmptyString
  | String a s' => if Ascii.eqb a c then lstrip c s' else s
  end.

Fixpoint rstrip (c : ascii) (s : string) : string :=
  match s with
  | EmptyString => EmptyString
  | String a s' =>
      match rstrip c s' with
      | EmptyString => if Ascii.eqb a c then EmptyString else String a EmptyString
      | r => String a r
      end
  end.

(** [s.strip(c)] for a one-character set *)
Definition strip (c : ascii) (s : string) : string := rstrip c (lstrip c s).

(** [l[::2]] and [l[1::2]] *)
Fixpoint evens {A : Type} (l : list A) : list A :=
  match l with
  | x :: _ :: t => x :: evens t
  | _ => l
  end.

Fixpoint odds {A : Type} (l : list A) : list A :=
  match l with
  | _ :: y :: t => y :: odds t
  | _ => []
  end.

(** [dict(pairs)]: a later pair overrides an earlier one with the same key *)
Definition dict (pairs : list (string * string)) : gmap string string :=
  foldl (fun d kv => <[kv.1 := kv.2]> d) ∅ pairs.

(** [d.get(k)]: the value, or [None] *)
Definition dict_get (d : gmap string string) (k : string) : pyval :=
  match d !! k with
  | Some v => PyStr v
  | None => PyNone
  end.

(** ** The transport and the interpreter

    Modelled from the spec: [base.AWG], the class both drivers extend, is
    missing from the sources at hand.  By the spec it is a connection
    abstraction exposing [write(command: text) -> void] and
    [query(command: text) -> text], both of which may fail.  The state of the
    link is [conn]; [awg_write] returns the exception raised, if any, and
    [awg_query] the exception or the response.  The interpreter supplies
    [str()] for floats and for exception instances. *)
Class Runtime := {
  conn : Type;
  awg_write : string -> conn -> option exn * conn;
  awg_query : string -> conn -> (exn + string) * conn;
  float_str : spec_float -> string;
  exn_str : exn -> string
}.

(** What a method hands to the transport and to [logging], in order. *)
Inductive event :=
| Write (command : string)
| Query (command : string)
| LogDebug (msg : string)
| LogError (msg : string).

(** The type of what a method without a [return] gives back *)
Definition NoneType : Type := Datatypes.unit.

Inductive result (A : Type) :=
| Return (a : A)
| Raise (e : exn).
Arguments Return {A} a.
Arguments Raise {A} e.

Section Effects.
Context {RT : Runtime}.

Record world := World { device : conn; trace : list event }.

(** A method body: it ends with a value or an exception, in a new world. *)
Definition M (A : Type) : Type := world -> result A * world.

Definition ret {A : Type} (a : A) : M A := fun w => (Return a, w).

Definition raise {A : Type} (e : exn) : M A := fun w => (Raise e, w).

Definition bind {A B : Type} (m : M A) (k : A -> M B) : M B :=
  fun w =>
    match m w with
    | (Return a, w') => k a w'
    | (Raise e, w') => (Raise e, w')
    end.

(** [try: body except Exception as e: handler(e)] *)
Definition try_except {A : Type} (body : M A) (handler : exn -> M A) : M A :=
  fun w =>
    match body w with
    | (Return a, w') => (Return a, w')
    | (Raise e, w') => handler e w'
    end.

Definition emit (ev : event) (w : world) : world :=
  World (device w) (trace w ++ [ev]).

(** [self.write(command)] *)
Definition write (command : string) : M NoneType :=
  fun w =>
    let (r, d) := awg_write command (device w) in
    let w' := World d (trace w ++ [Write command]) in
    match r with
    | None => (Return tt, w')
    | Some e => (Raise e, w')
    end.

(** [self.query(command)] *)
Definition query (command : string) : M string :=
  fun w =>
    let (r, d) := awg_query command (device w) in
    let w' := World d (trace w ++ [Query command]) in
    match r with
    | inr response => (Return response, w')
    | inl e => (Raise e, w')
    end.

(** [logging.debug(msg)] and [logging.error(msg)] *)
Definition logging_debug (msg : string) : M NoneType :=
  fun w => (Return tt, emit (LogDebug msg) w).

Definition logging_error (msg : string) : M NoneType :=
  fun w => (Return tt, emit (LogError msg) w).

(** [str(x)], as an f-string inserts it.  A member of an [Enum] shows as
    [Class.MEMBER]. *)
Definition py_str (v : pyval) : string :=
  match v with
  | PyNone => "None"
  | PyBool true => "True"
  | PyBool false => "False"
  | PyInt z => str_int z
  | PyFloat f => float_str f
  | PyStr s => s
  | PyAmplitudeUnit u => "AmplitudeUnit." +:+ AmplitudeUnit.name u
  | PyFrequencyUnit u => "FrequencyUnit." +:+ FrequencyUnit.name u
  | PyPolarity p => "Polarity." +:+ Polarity.name p
  | PyBurstModeRigol m => "BurstModeRigol." +:+ BurstModeRigol.name m
  | PyBurstModeSiglent m => "BurstModeSiglent." +:+ BurstModeSiglent.name m
  | PyBurstTriggerSource s => "BurstTriggerSource." +:+ BurstTriggerSource.name s
  | PyWaveformType t => "WaveformType." +:+ WaveformType.name t
  | PyOutputLoad l => "OutputLoad." +:+ OutputLoad.name l
  | PyObject _ shown => shown
  end.

End Effects.

Arguments M {RT} A.

Declare Scope py_scope.
Delimit Scope py_scope with py.
Notation "x <- m ;; k" := (bind m (fun x => k))
  (at level 100, m at next level, k at level 200, right associativity) : py_scope.
Notation "m ;;; k" := (bind m (fun _ => k))
  (at level 100, k at level 200, right associativity) : py_scope.

(** ** The argument checks shared by both drivers *)

(** [type(channel) is not int or not (channel == 1 or channel == 2)] *)
Definition invalid_channel (channel : pyval) : bool :=
  match channel with
  | PyInt z => negb ((z =? 1) || (z =? 2))
  | _ => true
  end.

(** [type(x) is not float and type(x) is not int] *)
Definition not_float_nor_int (x : pyval) : bool :=
  match x with
  | PyInt _ | PyFloat _ => false
  | _ => true
  end.

(** ["ON" if state else "OFF"], for a [bool] *)
Definition on_off (state : bool) : string := if state then "ON" else "OFF".

(** [isinstance(load, OutputLoad)] *)
Definition isinstance_OutputLoad (load : pyval) : bool :=
  match load with
  | PyOutputLoad _ => true
  | _ => false
  end.

(** [load == OutputLoad.X]: a member of a plain [Enum] equals itself only *)
Definition py_eq_load (load : pyval) (member : OutputLoad.t) : bool :=
  match load with
  | PyOutputLoad l => OutputLoad.eqb l member
  | _ => false
  end.

(** ** rigol.py *)

Module RigolDG1000Z.
Section Methods.
Context {RT : Runtime}.
Local Open Scope py_scope.

(** [RigolDG1000Z.set_amplitude] *)
Definition set_amplitude (channel amplitude unit : pyval) : M NoneType :=
  if invalid_channel channel then
    raise (InvalidChannelNumber channel)
  else if not_float_nor_int amplitude then
    raise (TypeError
      ("'amplitude' must be float or int; received " +:+ type_repr amplitude))
  else if negb (py_le (PyInt (-10)) amplitude && py_le amplitude (PyInt 10)) then
    raise (ValueError
      ("'amplitude' must be between -/+ 10"))
  else match unit with
  | PyAmplitudeUnit unit =>
  try_except
    (write ("SOUR" +:+ py_str channel +:+ ":VOLT " +:+ py_str amplitude +:+ AmplitudeUnit.value unit) ;;;
     logging_debug ("Channel " +:+ py_str channel +:+ " amplitude set to " +:+ py_str amplitude +:+ AmplitudeUnit.value unit))
    (fun e =>
     logging_error ("Failed to set channel " +:+ py_str channel +:+ " amplitude to " +:+ py_str amplitude +:+ AmplitudeUnit.value unit +:+ ": " +:+ exn_str e) ;;;
     raise e)
  | _ =>
    raise (TypeError
      ("'unit' must be enum of type AmplitudeUnit. Hint: have you forgotten to import 'AmplitudeType' from 'pyawg'?"))
  end.

(** [RigolDG1000Z.set_burst_delay] *)
Definition set_burst_delay (channel delay : pyval) : M NoneType :=
  if invalid_channel channel then
    raise (InvalidChannelNumber channel)
  else if not_float_nor_int delay then
    raise (TypeError
      ("'delay' must be float or int; received " +:+ type_repr delay))
  else if py_lt delay (PyInt 0) then
    raise (ValueError
      ("'delay' cannot be negative"))
  else
  try_except
    (write ("SOUR" +:+ py_str channel +:+ ":BURS:TDEL " +:+ py_str delay) ;;;
     logging_debug ("Channel " +:+ py_str channel +:+ " burst delay has been set to " +:+ py_str delay))
    (fun e =>
     logging_error ("Failed to set channel " +:+ py_str channel +:+ " burst delay to " +:+ py_str delay +:+ ": " +:+ exn_str e)).

(** [RigolDG1000Z.set_burst_mode] *)
Definition set_burst_mode (channel burst_mode : pyval) : M NoneType :=
  if invalid_channel channel then
    raise (InvalidChannelNumber channel)
  else match burst_mode with
  | PyBurstModeRigol burst_mode =>
  try_except
    (write ("SOUR" +:+ py_str channel +:+ ":BURS:MODE " +:+ BurstModeRigol.value burst_mode) ;;;
     logging_debug ("Channel " +:+ py_str channel +:+ " burst mode has been set to " +:+ BurstModeRigol.value burst_mode))
    (fun e =>
     logging_error ("Failed to set channel " +:+ py_str channel +:+ " burst mode to " +:+ BurstModeRigol.value burst_mode +:+ ": " +:+ exn_str e))
  | _ =>
    raise (TypeError
      ("'burst_mode' must be enum of type BurstModeRigol. Hint: have you forgotten to import 'BurstModeRigol' from 'pyawg'?"))
  end.

(** [RigolDG1000Z.set_burst_period] *)
Definition set_burst_period (channel period : pyval) : M NoneType :=
  if invalid_channel channel then
    raise (InvalidChannelNumber channel)
  else if not_float_nor_int period then
    raise (TypeError
      ("'period' must be float or int; received " +:+ type_repr period))
  else if py_lt period (PyInt 0) then
    raise (ValueError
      ("'period' cannot be negative"))
  else
  try_except
    (write ("SOUR" +:+ py_str channel +:+ ":BURS:INT:PER " +:+ py_str period) ;;;
     logging_debug ("Channel " +:+ py_str channel +:+ " burst period has been set to " +:+ py_str period))
    (fun e =>
     logging_error ("Failed to set channel " +:+ py_str channel +:+ " burst period to " +:+ py_str period +:+ ": " +:+ exn_str e)).

(** [RigolDG1000Z.set_burst_state] *)
Definition set_burst_state (channel state : pyval) : M NoneType :=
  if invalid_channel channel then
    raise (InvalidChannelNumber channel)
  else match state with
  | PyBool state =>
  let state_str := on_off state in
  try_except
    (write ("SOUR" +:+ py_str channel +:+ ":BURS " +:+ state_str) ;;;
     logging_debug ("Channel " +:+ py_str channel +:+ " burst state has been set to " +:+ state_str))
    (fun e =>
     logging_error ("Failed to set channel " +:+ py_str channel +:+ " burst state to " +:+ state_str +:+ ": " +:+ exn_str e))
  | _ =>
    raise (TypeError
      ("'state' must be bool; received " +:+ type_repr state))
  end.

(** [RigolDG1000Z.set_burst_trigger_source] *)
Definition set_burst_trigger_source (channel trigger_source : pyval) : M NoneType :=
  if invalid_channel channel then
    raise (InvalidChannelNumber channel)
  else match trigger_source with
  | PyBurstTriggerSource trigger_source =>
  try_except
    (write ("SOUR" +:+ py_str channel +:+ ":BURS:TRIG:SOUR " +:+ BurstTriggerSource.value trigger_source) ;;;
     logging_debug ("Channel " +:+ py_str channel +:+ " burst trigger source has been set to " +:+ BurstTriggerSource.value trigger_source))
    (fun e =>
     logging_error ("Failed to set channel " +:+ py_str channel +:+ " burst trigger source to " +:+ BurstTriggerSource.value trigger_source +:+ ": " +:+ exn_str e))
  | _ =>
    raise (TypeError
      ("'trigger_source' must be enum of type BurstTriggerSource. Hint: have you forgotten to import 'BurstTriggerSource' from 'pyawg'?"))
  end.

(** [RigolDG1000Z.set_frequency] *)
Definition set_frequency (channel frequency unit : pyval) : M NoneType :=
  if invalid_channel channel then
    raise (InvalidChannelNumber channel)
  else if not_float_nor_int frequency then
    raise (TypeError
      ("'frequency' must be float or int; received " +:+ type_repr frequency))
  else if py_lt frequency (PyInt 0) then
    raise (ValueError
      ("'frequency' cannot be negative"))
  else match unit with
  | PyFrequencyUnit unit =>
  try_except
    (write ("SOUR" +:+ py_str channel +:+ ":FREQ " +:+ py_str frequency +:+ FrequencyUnit.value unit) ;;;
     logging_debug ("Channel " +:+ py_str channel +:+ " frequency set to " +:+ py_str frequency +:+ FrequencyUnit.value unit))
    (fun e =>
     logging_error ("Failed to set channel " +:+ py_str channel +:+ " frequency to " +:+ py_str frequency +:+ FrequencyUnit.value unit +:+ ": " +:+ exn_str e) ;;;
     raise e)
  | _ =>
    raise (TypeError
      ("'unit' must be enum of type FrequencyUnit. Hint: did you forget to import 'FrequencyUnit' from 'pyawg'?"))
  end.

(** [RigolDG1000Z.set_offset] *)
Definition set_offset (channel offset_voltage : pyval) : M NoneType :=
  if invalid_channel channel then
    raise (InvalidChannelNumber channel)
  else if not_float_nor_int offset_voltage then
    raise (TypeError
      ("'offset_voltage' must be float or int; received " +:+ type_repr offset_voltage))
  else
  try_except
    (write ("SOUR" +:+ py_str channel +:+ ":VOLT:OFFS " +:+ py_str offset_voltage) ;;;
     logging_debug ("Channel " +:+ py_str channel +:+ " offset voltage set to " +:+ py_str offset_voltage +:+ " Vdc"))
    (fun e =>
     logging_error ("Failed to set channel " +:+ py_str channel +:+ " offset voltage to " +:+ py_str offset_voltage +:+ " Vdc: " +:+ exn_str e) ;;;
     raise e).

(** [RigolDG1000Z.set_output] *)
Definition set_output (channel state : pyval) : M NoneType :=
  if invalid_channel channel then
    raise (InvalidChannelNumber channel)
  else match state with
  | PyBool state =>
  let state_str := on_off state in
  try_except
    (write ("OUTP" +:+ py_str channel +:+ " " +:+ state_str) ;;;
     logging_debug ("Channel " +:+ py_str channel +:+ " output has been set to " +:+ state_str))
    (fun e =>
     logging_error ("Failed to set channel " +:+ py_str channel +:+ " output to " +:+ state_str +:+ ": " +:+ exn_str e))
  | _ =>
    raise (TypeError
      ("'state' must be bool; received " +:+ type_repr state))
  end.

(** [RigolDG1000Z.set_output_load] *)
Definition set_output_load (channel load : pyval) : M NoneType :=
  if invalid_channel channel then
    raise (InvalidChannelNumber channel)
  else if not_float_nor_int load && negb (isinstance_OutputLoad load) then
    raise (TypeError
      ("'load' must be float or int or enum of type OutputLoad; received " +:+ type_repr load +:+ ". Hint: did you forget to import 'OutputLoad' from 'pyawg'?"))
  else
  let load := if py_eq_load load OutputLoad.HZ || py_eq_load load OutputLoad.INF
              then PyStr "INF" else load in
  try_except
    (write ("OUTP" +:+ py_str channel +:+ ":LOAD " +:+ py_str load) ;;;
     logging_debug ("Channel " +:+ py_str channel +:+ " output load has been set to " +:+ py_str load))
    (fun e =>
     logging_error ("Failed to set channel " +:+ py_str channel +:+ " output load to " +:+ py_str load +:+ ": " +:+ exn_str e)).

(** [RigolDG1000Z.set_phase] *)
Definition set_phase (channel phase : pyval) : M NoneType :=
  if invalid_channel channel then
    raise (InvalidChannelNumber channel)
  else if not_float_nor_int phase then
    raise (TypeError
      ("'phase' must be float or int; received " +:+ type_repr phase))
  else if negb (py_le (PyInt 0) (py_abs phase) && py_le (py_abs phase) (PyInt 360)) then
    raise (ValueError
      ("'phase' must be between 0 and 360"))
  else
  try_except
    (write ("SOUR" +:+ py_str channel +:+ ":PHAS " +:+ py_str phase) ;;;
     logging_debug ("Channel " +:+ py_str channel +:+ " phase set to " +:+ py_str phase +:+ "°"))
    (fun e =>
     logging_error ("Failed to set channel " +:+ py_str channel +:+ " phase to " +:+ py_str phase +:+ "°: " +:+ exn_str e) ;;;
     raise e).

(** [RigolDG1000Z.set_waveform] *)
Definition set_waveform (channel waveform_type : pyval) : M NoneType :=
  if invalid_channel channel then
    raise (InvalidChannelNumber channel)
  else match waveform_type with
  | PyWaveformType waveform_type =>
  try_except
    (write ("SOUR" +:+ py_str channel +:+ ":FUNC " +:+ WaveformType.value waveform_type) ;;;
     logging_debug ("Channel " +:+ py_str channel +:+ " waveform set to " +:+ WaveformType.value waveform_type))
    (fun e =>
     logging_error ("Failed to set channel " +:+ py_str channel +:+ " waveform to " +:+ WaveformType.value waveform_type +:+ ": " +:+ exn_str e) ;;;
     raise e)
  | _ =>
    raise (TypeError
      ("'waveform_type' must be enum of type WaveformType. Hint: have you forgotten to import 'WaveformType' from 'pyawg'?"))
  end.

(** [RigolDG1000Z.sync_phase] *)
Definition sync_phase (channel : pyval) : M NoneType :=
  if invalid_channel channel then
    raise (InvalidChannelNumber channel)
  else
  try_except
    (write ("SOUR" +:+ py_str channel +:+ ":PHAS:SYNC") ;;;
     logging_debug ("Phases of both the channels have been synchronized"))
    (fun e =>
     logging_error ("Failed to synchronize phase: " +:+ exn_str e) ;;;
     raise e).

(** [RigolDG1000Z.trigger_burst] *)
Definition trigger_burst (channel : pyval) : M NoneType :=
  if invalid_channel channel then
    raise (InvalidChannelNumber channel)
  else
  try_except
    (write ("SOUR" +:+ py_str channel +:+ ":BURS:TRIG") ;;;
     logging_debug ("Burst on channel " +:+ py_str channel +:+ " has been successfully triggered"))
    (fun e =>
     logging_error ("Failed to trigger the burst on channel " +:+ py_str channel +:+ ": " +:+ exn_str e)).

End Methods.
End RigolDG1000Z.

(** ** siglent.py *)

Module SiglentSDG1000X.
Section Methods.
Context {RT : Runtime}.
Local Open Scope py_scope.

(** [SiglentSDG1000X.get_channel_wave_parameter].  The whole body is inside
    the [try]; [reply.split(' ')[1]] raises [IndexError] when the reply has
    no space, and [result_dict[parameter]] raises [KeyError] when
    [parameter], a [str] as annotated, is not one of the eight names. *)
Definition get_channel_wave_parameter (channel : pyval) (parameter : string) : M pyval :=
  try_except
    (reply <- query ("C" +:+ py_str channel +:+ "BSWV?") ;;
     match split " "%char reply with
     | _ :: response :: _ =>
         let fields := split ","%char (strip "'"%char response) in
         let params := dict (zip (evens fields) (odds fields)) in
         let result_dict : gmap string pyval :=
           list_to_map
             [ ("waveform_type", dict_get params "WVTP");
               ("frequency", dict_get params "FRQ");
               ("period", dict_get params "PERI");
               ("amplitude", dict_get params "AMP");
               ("offset", dict_get params "OFST");
               ("high_level", dict_get params "HLEV");
               ("low_level", dict_get params "LLEV");
               ("phase", dict_get params "PHSE") ] in
         match result_dict !! parameter with
         | Some value => ret value
         | None => raise (KeyError parameter)
         end
     | _ => raise (IndexError "list index out of range")
     end)
    (fun e =>
     logging_error ("Failed to retrieve parameter and/or its value: " +:+ exn_str e) ;;;
     raise e).

(** [SiglentSDG1000X.set_amplitude] *)
Definition set_amplitude (channel amplitude unit : pyval) : M NoneType :=
  if invalid_channel channel then
    raise (InvalidChannelNumber channel)
  else if not_float_nor_int amplitude then
    raise (TypeError
      ("'amplitude' must be float or int; received " +:+ type_repr amplitude))
  else if negb (py_le (PyInt (-10)) amplitude && py_le amplitude (PyInt 10)) then
    raise (ValueError
      ("'amplitude' must be between -/+ 10"))
  else match unit with
  | PyAmplitudeUnit unit =>
  try_except
    (write ("C" +:+ py_str channel +:+ ":BSWV AMP," +:+ py_str amplitude) ;;;
     logging_debug ("Channel " +:+ py_str channel +:+ " amplitude set to " +:+ py_str amplitude))
    (fun e =>
     logging_error ("Failed to set channel " +:+ py_str channel +:+ " amplitude to " +:+ py_str amplitude +:+ AmplitudeUnit.value unit +:+ ": " +:+ exn_str e) ;;;
     raise e)
  | _ =>
    raise (TypeError
      ("'unit' must be enum of type AmplitudeUnit. Hint: have you forgotten to import 'AmplitudeType' from 'pyawg'?"))
  end.

(** [SiglentSDG1000X.set_burst_delay] *)
Definition set_burst_delay (channel delay : pyval) : M NoneType :=
  if invalid_channel channel then
    raise (InvalidChannelNumber channel)
  else if not_float_nor_int delay then
    raise (TypeError
      ("'delay' must be float or int; received " +:+ type_repr delay))
  else if py_lt delay (PyInt 0) then
    raise (ValueError
      ("'delay' cannot be negative"))
  else
  try_except
    (write ("C" +:+ py_str channel +:+ ":BTWV DEL," +:+ py_str delay) ;;;
     logging_debug ("Channel " +:+ py_str channel +:+ " burst delay has been set to " +:+ py_str delay))
    (fun e =>
     logging_error ("Failed to set channel " +:+ py_str channel +:+ " burst delay to " +:+ py_str delay +:+ ": " +:+ exn_str e)).

(** [SiglentSDG1000X.set_burst_mode] *)
Definition set_burst_mode (channel burst_mode : pyval) : M NoneType :=
  if invalid_channel channel then
    raise (InvalidChannelNumber channel)
  else match burst_mode with
  | PyBurstModeSiglent burst_mode =>
  try_except
    (write ("C" +:+ py_str channel +:+ ":BTWV GATE_NCYC," +:+ BurstModeSiglent.value burst_mode) ;;;
     logging_debug ("Channel " +:+ py_str channel +:+ " burst mode has been set to " +:+ BurstModeSiglent.value burst_mode))
    (fun e =>
     logging_error ("Failed to set channel " +:+ py_str channel +:+ " burst mode to " +:+ BurstModeSiglent.value burst_mode +:+ ": " +:+ exn_str e))
  | _ =>
    raise (TypeError
      ("'burst_mode' must be enum of type BurstModeSiglent. Hint: have you forgotten to import 'BurstModeSiglent' from 'pyawg'?"))
  end.

(** [SiglentSDG1000X.set_burst_period] *)
Definition set_burst_period (channel period : pyval) : M NoneType :=
  if invalid_channel channel then
    raise (InvalidChannelNumber channel)
  else if not_float_nor_int period then
    raise (TypeError
      ("'period' must be float or int; received " +:+ type_repr period))
  else if py_lt period (PyInt 0) then
    raise (ValueError
      ("'period' cannot be negative"))
  else
  try_except
    (write ("C" +:+ py_str channel +:+ ":BTWV PRD," +:+ py_str period) ;;;
     logging_debug ("Channel " +:+ py_str channel +:+ " burst period has been set to " +:+ py_str period))
    (fun e =>
     logging_error ("Failed to set channel " +:+ py_str channel +:+ " burst period to " +:+ py_str period +:+ ": " +:+ exn_str e)).

(** [SiglentSDG1000X.set_burst_state] *)
Definition set_burst_state (channel state : pyval) : M NoneType :=
  if invalid_channel channel then
    raise (InvalidChannelNumber channel)
  else match state with
  | PyBool state =>
  let state_str := on_off state in
  try_except
    (write ("C" +:+ py_str channel +:+ ":BTWV STATE," +:+ state_str) ;;;
     logging_debug ("Channel " +:+ py_str channel +:+ " burst state has been set to " +:+ state_str))
    (fun e =>
     logging_error ("Failed to set channel " +:+ py_str channel +:+ " burst state to " +:+ state_str +:+ ": " +:+ exn_str e))
  | _ =>
    raise (TypeError
      ("'state' must be bool; received " +:+ type_repr state))
  end.

(** [SiglentSDG1000X.set_burst_trigger_source] *)
Definition set_burst_trigger_source (channel trigger_source : pyval) : M NoneType :=
  if invalid_channel channel then
    raise (InvalidChannelNumber channel)
  else match trigger_source with
  | PyBurstTriggerSource trigger_source =>
  try_except
    (write ("C" +:+ py_str channel +:+ ":BTWV TRSR," +:+ BurstTriggerSource.value trigger_source) ;;;
     logging_debug ("Channel " +:+ py_str channel +:+ " burst trigger source has been set to " +:+ BurstTriggerSource.value trigger_source))
    (fun e =>
     logging_error ("Failed to set channel " +:+ py_str channel +:+ " burst trigger source to " +:+ BurstTriggerSource.value trigger_source +:+ ": " +:+ exn_str e))
  | _ =>
    raise (TypeError
      ("'trigger_source' must be enum of type BurstTriggerSource. Hint: have you forgotten to import 'BurstTriggerSource' from 'pyawg'?"))
  end.

(** [SiglentSDG1000X.set_frequency] *)
Definition set_frequency (channel frequency unit : pyval) : M NoneType :=
  if invalid_channel channel then
    raise (InvalidChannelNumber channel)
  else if not_float_nor_int frequency then
    raise (TypeError
      ("'frequency' must be float or int; received " +:+ type_repr frequency))
  else if py_lt frequency (PyInt 0) then
    raise (ValueError
      ("'frequency' cannot be negative"))
  else match unit with
  | PyFrequencyUnit unit =>
  try_except
    (let converted_frequency :=
         if FrequencyUnit.eqb unit FrequencyUnit.KHZ then py_mul frequency 1000
         else if FrequencyUnit.eqb unit FrequencyUnit.MHZ then py_mul frequency 1000000
         else frequency in
     write ("C" +:+ py_str channel +:+ ":BSWV FRQ," +:+ py_str converted_frequency) ;;;
     logging_debug ("Channel " +:+ py_str channel +:+ " frequency set to " +:+ py_str frequency +:+ FrequencyUnit.value unit +:+ " (converted to " +:+ py_str converted_frequency +:+ " Hz)"))
    (fun e =>
     logging_error ("Failed to set channel " +:+ py_str channel +:+ " frequency to " +:+ py_str frequency +:+ FrequencyUnit.value unit +:+ ": " +:+ exn_str e) ;;;
     raise e)
  | _ =>
    raise (TypeError
      ("'unit' must be enum of type FrequencyUnit. Hint: did you forget to import 'FrequencyUnit' from 'pyawg'?"))
  end.

(** [SiglentSDG1000X.set_offset] *)
Definition set_offset (channel offset_voltage : pyval) : M NoneType :=
  if invalid_channel channel then
    raise (InvalidChannelNumber channel)
  else if not_float_nor_int offset_voltage then
    raise (TypeError
      ("'offset_voltage' must be float or int; received " +:+ type_repr offset_voltage))
  else
  try_except
    (write ("C" +:+ py_str channel +:+ ":BSWV OFST," +:+ py_str offset_voltage) ;;;
     logging_debug ("Channel " +:+ py_str channel +:+ " offset voltage set to " +:+ py_str offset_voltage +:+ " Vdc"))
    (fun e =>
     logging_error ("Failed to set channel " +:+ py_str channel +:+ " offset voltage to " +:+ py_str offset_voltage +:+ " Vdc: " +:+ exn_str e) ;;;
     raise e).

(** [SiglentSDG1000X.set_output] *)
Definition set_output (channel state : pyval) : M NoneType :=
  if invalid_channel channel then
    raise (InvalidChannelNumber channel)
  else match state with
  | PyBool state =>
  let state_str := on_off state in
  try_except
    (write ("C" +:+ py_str channel +:+ ":OUTP " +:+ state_str) ;;;
     logging_debug ("Channel " +:+ py_str channel +:+ " output has been set to " +:+ state_str))
    (fun e =>
     logging_error ("Failed to set channel " +:+ py_str channel +:+ " output to " +:+ state_str +:+ ": " +:+ exn_str e))
  | _ =>
    raise (TypeError
      ("'state' must be bool; received " +:+ type_repr state))
  end.

(** [SiglentSDG1000X.set_output_load] *)
Definition set_output_load (channel load : pyval) : M NoneType :=
  if invalid_channel channel then
    raise (InvalidChannelNumber channel)
  else if not_float_nor_int load && negb (isinstance_OutputLoad load) then
    raise (TypeError
      ("'load' must be float or int or enum of type OutputLoad; received " +:+ type_repr load +:+ ". Hint: did you forget to import 'OutputLoad' from 'pyawg'?"))
  else
  let load := if py_eq_load load OutputLoad.HZ || py_eq_load load OutputLoad.INF
              then PyStr "HZ" else load in
  try_except
    (write ("C" +:+ py_str channel +:+ ":OUTP LOAD," +:+ py_str load) ;;;
     logging_debug ("Channel " +:+ py_str channel +:+ " output load has been set to " +:+ py_str load))
    (fun e =>
     logging_error ("Failed to set channel " +:+ py_str channel +:+ " output load to " +:+ py_str load +:+ ": " +:+ exn_str e)).

(** [SiglentSDG1000X.set_phase] *)
Definition set_phase (channel phase : pyval) : M NoneType :=
  if invalid_channel channel then
    raise (InvalidChannelNumber channel)
  else if not_float_nor_int phase then
    raise (TypeError
      ("'phase' must be float or int; received " +:+ type_repr phase))
  else if negb (py_le (PyInt 0) (py_abs phase) && py_le (py_abs phase) (PyInt 360)) then
    raise (ValueError
      ("'phase' must be between 0 and 360"))
  else
  try_except
    (write ("C" +:+ py_str channel +:+ ":BSWV PHSE," +:+ py_str phase) ;;;
     logging_debug ("Channel " +:+ py_str channel +:+ " phase set to " +:+ py_str phase +:+ "°"))
    (fun e =>
     logging_error ("Failed to set channel " +:+ py_str channel +:+ " phase to " +:+ py_str phase +:+ "°: " +:+ exn_str e) ;;;
     raise e).

(** [SiglentSDG1000X.set_waveform] *)
Definition set_waveform (channel waveform_type : pyval) : M NoneType :=
  if invalid_channel channel then
    raise (InvalidChannelNumber channel)
  else match waveform_type with
  | PyWaveformType waveform_type =>
  try_except
    (write ("C" +:+ py_str channel +:+ ":BSWV WVTP," +:+ WaveformType.value waveform_type) ;;;
     logging_debug ("Channel " +:+ py_str channel +:+ " waveform set to " +:+ WaveformType.value waveform_type))
    (fun e =>
     logging_error ("Failed to set channel " +:+ py_str channel +:+ " waveform to " +:+ WaveformType.value waveform_type +:+ ": " +:+ exn_str e) ;;;
     raise e)
  | _ =>
    raise (TypeError
      ("'waveform_type' must be enum of type WaveformType. Hint: have you forgotten to import 'WaveformType' from 'pyawg'?"))
  end.

(** [SiglentSDG1000X.sync_phase] *)
Definition sync_phase (_channel : pyval) : M NoneType :=
  try_except
    (write ("EQPHASE") ;;;
     logging_debug ("Phases of both the channels have been synchronized"))
    (fun e =>
     logging_error ("Failed to synchronize phase: " +:+ exn_str e) ;;;
     raise e).

(** [SiglentSDG1000X.trigger_burst] *)
Definition trigger_burst (channel : pyval) : M NoneType :=
  if invalid_channel channel then
    raise (InvalidChannelNumber channel)
  else
  try_except
    (write ("C" +:+ py_str channel +:+ ":BTWV MTRIG") ;;;
     logging_debug ("Burst on channel " +:+ py_str channel +:+ " has been successfully triggered"))
    (fun e =>
     logging_error ("Failed to trigger the burst on channel " +:+ py_str channel +:+ ": " +:+ exn_str e)).

End Methods.
End SiglentSDG1000X.

(** ** Calls

    The fourteen methods the two classes share, as one type of calls, so
    that a property of every operation is a property of [invoke]. *)

Inductive vendor := Rigol | Siglent.

Inductive call :=
| Set_amplitude (channel amplitude unit : pyval)
| Set_burst_delay (channel delay : pyval)
| Set_burst_mode (channel burst_mode : pyval)
| Set_burst_period (channel period : pyval)
| Set_burst_state (channel state : pyval)
| Set_burst_trigger_source (channel trigger_source : pyval)
| Set_frequency (channel frequency unit : pyval)
| Set_offset (channel offset_voltage : pyval)
| Set_output (channel state : pyval)
| Set_output_load (channel load : pyval)
| Set_phase (channel phase : pyval)
| Set_waveform (channel waveform_type : pyval)
| Sync_phase (channel : pyval)
| Trigger_burst (channel : pyval).

Definition invoke {RT : Runtime} (v : vendor) (c : call) : M NoneType :=
  match v, c with
  | Rigol, Set_amplitude ch a u => RigolDG1000Z.set_amplitude ch a u
  | Rigol, Set_burst_delay ch d => RigolDG1000Z.set_burst_delay ch d
  | Rigol, Set_burst_mode ch m => RigolDG1000Z.set_burst_mode ch m
  | Rigol, Set_burst_period ch p => RigolDG1000Z.set_burst_period ch p
  | Rigol, Set_burst_state ch s => RigolDG1000Z.set_burst_state ch s
  | Rigol, Set_burst_trigger_source ch t => RigolDG1000Z.set_burst_trigger_source ch t
  | Rigol, Set_frequency ch f u => RigolDG1000Z.set_frequency ch f u
  | Rigol, Set_offset ch o => RigolDG1000Z.set_offset ch o
  | Rigol, Set_output ch s => RigolDG1000Z.set_output ch s
  | Rigol, Set_output_load ch l => RigolDG1000Z.set_output_load ch l
  | Rigol, Set_phase ch p => RigolDG1000Z.set_phase ch p
  | Rigol, Set_waveform ch t => RigolDG1000Z.set_waveform ch t
  | Rigol, Sync_phase ch => RigolDG1000Z.sync_phase ch
  | Rigol, Trigger_burst ch => RigolDG1000Z.trigger_burst ch
  | Siglent, Set_amplitude ch a u => SiglentSDG1000X.set_amplitude ch a u
  | Siglent, Set_burst_delay ch d => SiglentSDG1000X.set_burst_delay ch d
  | Siglent, Set_burst_mode ch m => SiglentSDG1000X.set_burst_mode ch m
  | Siglent, Set_burst_period ch p => SiglentSDG1000X.set_burst_period ch p
  | Siglent, Set_burst_state ch s => SiglentSDG1000X.set_burst_state ch s
  | Siglent, Set_burst_trigger_source ch t => SiglentSDG1000X.set_burst_trigger_source ch t
  | Siglent, Set_frequency ch f u => SiglentSDG1000X.set_frequency ch f u
  | Siglent, Set_offset ch o => SiglentSDG1000X.set_offset ch o
  | Siglent, Set_output ch s => SiglentSDG1000X.set_output ch s
  | Siglent, Set_output_load ch l => SiglentSDG1000X.set_output_load ch l
  | Siglent, Set_phase ch p => SiglentSDG1000X.set_phase ch p
  | Siglent, Set_waveform ch t => SiglentSDG1000X.set_waveform ch t
  | Siglent, Sync_phase ch => SiglentSDG1000X.sync_phase ch
  | Siglent, Trigger_burst ch => SiglentSDG1000X.trigger_burst ch
  end.

(** The channel argument of a call *)
Definition channel_of (c : call) : pyval :=
  match c with
  | Set_amplitude ch _ _ | Set_burst_delay ch _ | Set_burst_mode ch _
  | Set_burst_period ch _ | Set_burst_state ch _
  | Set_burst_trigger_source ch _ | Set_frequency ch _ _ | Set_offset ch _
  | Set_output ch _ | Set_output_load ch _ | Set_phase ch _
  | Set_waveform ch _ | Sync_phase ch | Trigger_burst ch => ch
  end.

(** The commands handed to the transport, in order *)
Definition commands (t : list event) : list string :=
  flat_map (fun ev => match ev with Write c | Query c => [c] | _ => [] end) t.

(** ** Two concrete links, to run the methods on *)

Definition show_exn (e : exn) : string :=
  match e with
  | InvalidChannelNumber _ => "InvalidChannelNumber"
  | TypeError msg | ValueError msg | IndexError msg => msg
  | KeyError key => "'" +:+ key +:+ "'"
  | TransportError _ msg => msg
  end.

Definition sample_response : string :=
  "C1:BSWV WVTP,SINE,FRQ,1000HZ,PERI,0.001S,AMP,4V,OFST,0V,HLEV,2V,LLEV,-2V".

(** A link on which nothing fails; a query is answered by [sample_response]. *)
Definition good_link : Runtime :=
  {| conn := Datatypes.unit;
     awg_write := fun _ d => (None, d);
     awg_query := fun _ d => (inr sample_response, d);
     float_str := fun _ => "<float>";
     exn_str := show_exn |}.

(** A link on which every write and query times out. *)
Definition timeout : exn := TransportError "VisaIOError" "timeout".

Definition dead_link : Runtime :=
  {| conn := Datatypes.unit;
     awg_write := fun _ d => (Some timeout, d);
     awg_query := fun _ d => (inl timeout, d);
     float_str := fun _ => "<float>";
     exn_str := show_exn |}.

(** The world before the first call *)
Definition start (RT : Runtime) (d : conn) : world := World d [].

(** ** The vocabulary of the specification *)

(** The errors the argument checks raise *)
Definition is_validation_error (e : exn) : bool :=
  match e with
  | InvalidChannelNumber _ | TypeError _ | ValueError _ => true
  | _ => false
  end.

(** Every method checks its channel, except [SiglentSDG1000X.sync_phase],
    whose [_channel] parameter is documented as purposely unused. *)
Definition checks_channel (v : vendor) (c : call) : bool :=
  match v, c with
  | Siglent, Sync_phase _ => false
  | _, _ => true
  end.

(** The operations that are documented to hand a transport failure on to the
    caller: their docstrings list [Exception] under [Raises]. *)
Definition documented_to_propagate (c : call) : bool :=
  match c with
  | Set_amplitude _ _ _ | Set_frequency _ _ _ | Set_offset _ _ | Set_phase _ _
  | Set_waveform _ _ | Sync_phase _ | Trigger_burst _ => true
  | _ => false
  end.

(** The operations whose [except] block ends in [raise]. *)
Definition reraises (c : call) : bool :=
  match c with
  | Set_amplitude _ _ _ | Set_frequency _ _ _ | Set_offset _ _ | Set_phase _ _
  | Set_waveform _ _ | Sync_phase _ => true
  | _ => false
  end.

(** The four ways of failing validation: "wrong argument type" *)
Definition wrong_type (c : call) : bool :=
  match c with
  | Set_amplitude _ x _ | Set_burst_delay _ x | Set_burst_period _ x
  | Set_frequency _ x _ | Set_offset _ x | Set_phase _ x =>
      not_float_nor_int x
  | Set_burst_state _ x | Set_output _ x =>
      match x with PyBool _ => false | _ => true end
  | Set_output_load _ x =>
      not_float_nor_int x && negb (isinstance_OutputLoad x)
  | _ => false
  end.

(** "out-of-range value", for an argument of the right type *)
Definition out_of_range (c : call) : bool :=
  match c with
  | Set_amplitude _ x _ => negb (py_le (PyInt (-10)) x && py_le x (PyInt 10))
  | Set_burst_delay _ x | Set_burst_period _ x | Set_frequency _ x _ =>
      py_lt x (PyInt 0)
  | Set_phase _ x =>
      negb (py_le (PyInt 0) (py_abs x) && py_le (py_abs x) (PyInt 360))
  | _ => false
  end.

(** The enumeration a symbolic argument must belong to, by name, and whether
    the argument passed belongs to it. *)
Definition symbolic_argument (v : vendor) (c : call) : option (string * bool) :=
  match c with
  | Set_amplitude _ _ u =>
      Some ("AmplitudeUnit", match u with PyAmplitudeUnit _ => true | _ => false end)
  | Set_frequency _ _ u =>
      Some ("FrequencyUnit", match u with PyFrequencyUnit _ => true | _ => false end)
  | Set_waveform _ t =>
      Some ("WaveformType", match t with PyWaveformType _ => true | _ => false end)
  | Set_burst_trigger_source _ s =>
      Some ("BurstTriggerSource",
            match s with PyBurstTriggerSource _ => true | _ => false end)
  | Set_burst_mode _ m =>
      match v with
      | Rigol =>
          Some ("BurstModeRigol", match m with PyBurstModeRigol _ => true | _ => false end)
      | Siglent =>
          Some ("BurstModeSiglent",
                match m with PyBurstModeSiglent _ => true | _ => false end)
      end
  | _ => None
  end.

(** "wrong enumeration" *)
Definition wrong_enumeration (v : vendor) (c : call) : bool :=
  match symbolic_argument v c with
  | Some (_, member) => negb member
  | None => false
  end.

Definition fails_validation (v : vendor) (c : call) : bool :=
  (checks_channel v c && invalid_channel (channel_of c))
  || wrong_type c || out_of_range c || wrong_enumeration v c.

(** [needle in haystack] *)
Fixpoint contains (needle haystack : string) : bool :=
  String.prefix needle haystack ||
  match haystack with
  | EmptyString => false
  | String _ rest => contains needle rest
  end.

(** The message of a [TypeError] names the enumeration [enum]. *)
Definition type_error_naming (enum : string) (e : exn) : bool :=
  match e with
  | TypeError msg => contains enum msg
  | _ => false
  end.

(** The numeric argument of a call: amplitude, delay, period, frequency,
    offset or phase *)
Definition numeric_argument (c : call) : option (string * pyval) :=
  match c with
  | Set_amplitude _ x _ => Some ("amplitude", x)
  | Set_burst_delay _ x => Some ("delay", x)
  | Set_burst_period _ x => Some ("period", x)
  | Set_frequency _ x _ => Some ("frequency", x)
  | Set_offset _ x => Some ("offset_voltage", x)
  | Set_phase _ x => Some ("phase", x)
  | _ => None
  end.

(** The commands on the trace once [m] has run from [w] *)
Definition sent_by {RT : Runtime} {A : Type} (m : M A) (w : world) : list string :=
  commands (trace (snd (m w))).


(** The order between the number a float stands for and an integer [k],
    computed exactly on integers: a finite float is [(-1)^s * m * 2^e].
    [None] for NaN, which is not ordered with anything. *)
Definition float_cmp_Z (f : spec_float) (k : Z) : option comparison :=
  match f with
  | S754_nan => None
  | S754_infinity s => Some (if s then Lt else Gt)
  | S754_zero _ => Some (0 ?= k)
  | S754_finite s m e =>
      let x := if s then Z.neg m else Z.pos m in
      Some (if 0 <=? e then x * 2 ^ e ?= k else x ?= k * 2 ^ (- e))
  end.

(** The same for an [int] or a [float] *)
Definition number_cmp (x : pyval) (k : Z) : option comparison :=
  match x with
  | PyInt z => Some (z ?= k)
  | PyFloat f => float_cmp_Z f k
  | _ => None
  end.

(** [lo <= x <= hi], as numbers *)
Definition in_interval (lo hi : Z) (x : pyval) : bool :=
  match number_cmp x lo, number_cmp x hi with
  | Some (Gt | Eq), Some (Lt | Eq) => true
  | _, _ => false
  end.

(** An [int], or a [float] that is a binary64 number *)
Definition is_number (x : pyval) : bool :=
  match x with
  | PyInt _ => true
  | PyFloat f => is_float64 f
  | _ => false
  end.

(** The eight parameter names of [get_channel_wave_parameter], each with the
    key of the response it stands for *)
Definition supported_parameters : list (string * string) :=
  [ ("waveform_type", "WVTP"); ("frequency", "FRQ"); ("period", "PERI");
    ("amplitude", "AMP"); ("offset", "OFST"); ("high_level", "HLEV");
    ("low_level", "LLEV"); ("phase", "PHSE") ].

(** [sep.join(l)] *)
Fixpoint join (sep : ascii) (l : list string) : string :=
  match l with
  | [] => EmptyString
  | [x] => x
  | x :: rest => x +:+ String sep (join sep rest)
  end.

(** The body of a well-formed response: [k1,v1,k2,v2,...] *)
Definition response_body (kvs : list (string * string)) : string :=
  join ","%char (flat_map (fun kv => [kv.1; kv.2]) kvs).

(** [c] does not occur in [s] *)
Fixpoint free_of (c : ascii) (s : string) : bool :=
  match s with
  | EmptyString => true
  | String a rest => negb (Ascii.eqb a c) && free_of c rest
  end.

(** A key or a value: no comma, space or apostrophe in it *)
Definition plain (s : string) : bool :=
  free_of ","%char s && free_of " "%char s && free_of "'"%char s.

(** The value a response gives for a key; the last one, if the key is
    repeated *)
Fixpoint value_of (key : string) (kvs : list (string * string)) : option string :=
  match kvs with
  | [] => None
  | (k, v) :: rest =>
      match value_of key rest with
      | Some v' => Some v'
      | None => if String.eqb k key then Some v else None
      end
  end.

(** The pairs of [sample_response] *)
Definition sample_pairs : list (string * string) :=
  [ ("WVTP", "SINE"); ("FRQ", "1000HZ"); ("PERI", "0.001S"); ("AMP", "4V");
    ("OFST", "0V"); ("HLEV", "2V"); ("LLEV", "-2V") ].


(** ** Further vocabulary, for the properties beyond the specification *)

(** A record handed to [logging] *)
Definition is_log (ev : event) : bool :=
  match ev with
  | LogDebug _ | LogError _ => true
  | Write _ | Query _ => false
  end.



(** A link on which nothing fails and every query is answered by [reply] *)
Definition echo_link (reply : string) : Runtime :=
  {| conn := Datatypes.unit;
     awg_write := fun _ d => (None, d);
     awg_query := fun _ d => (inr reply, d);
     float_str := fun _ => "<float>";
     exn_str := show_exn |}.

(** * Properties *)

Section Dispatch.
Context {RT : Runtime}.

(** ** The two shapes of [try]/[except] block *)

Lemma try_write_reraise (cmd dbg : string) (err : exn -> string) (w : world) :
  try_except (bind (write cmd) (fun _ => logging_debug dbg))
             (fun e => bind (logging_error (err e)) (fun _ => raise e)) w =
  match awg_write cmd (device w) with
  | (None, d) => (Return tt, World d (trace w ++ [Write cmd; LogDebug dbg]))
  | (Some e, d) => (Raise e, World d (trace w ++ [Write cmd; LogError (err e)]))
  end.
Proof.
  unfold try_except, bind, write, logging_debug, logging_error, raise, emit.
  destruct (awg_write cmd (device w)) as [[e|] d]; simpl;
    rewrite <- app_assoc; reflexivity.
Qed.

Lemma try_write_swallow (cmd dbg : string) (err : exn -> string) (w : world) :
  try_except (bind (write cmd) (fun _ => logging_debug dbg))
             (fun e => logging_error (err e)) w =
  match awg_write cmd (device w) with
  | (None, d) => (Return tt, World d (trace w ++ [Write cmd; LogDebug dbg]))
  | (Some e, d) => (Return tt, World d (trace w ++ [Write cmd; LogError (err e)]))
  end.
Proof.
  unfold try_except, bind, write, logging_debug, logging_error, emit.
  destruct (awg_write cmd (device w)) as [[e|] d]; simpl;
    rewrite <- app_assoc; reflexivity.
Qed.

Lemma commands_app (t u : list event) : commands (t ++ u) = commands t ++ commands u.
Proof. unfold commands. apply flat_map_app. Qed.

Lemma invalid_channel_spec (ch : pyval) :
  invalid_channel ch = true <-> ch <> PyInt 1 /\ ch <> PyInt 2.
Proof.
  destruct ch; simpl; try (split; [intros _; split; discriminate | reflexivity]).
  rewrite negb_true_iff, orb_false_iff, !Z.eqb_neq.
  split; intros [H1 H2]; split; congruence.
Qed.

End Dispatch.

(** Unfold a call down to its checks. *)
Ltac unfold_methods :=
  unfold invoke,
    RigolDG1000Z.set_amplitude, RigolDG1000Z.set_burst_delay,
    RigolDG1000Z.set_burst_mode, RigolDG1000Z.set_burst_period,
    RigolDG1000Z.set_burst_state, RigolDG1000Z.set_burst_trigger_source,
    RigolDG1000Z.set_frequency, RigolDG1000Z.set_offset,
    RigolDG1000Z.set_output, RigolDG1000Z.set_output_load,
    RigolDG1000Z.set_phase, RigolDG1000Z.set_waveform,
    RigolDG1000Z.sync_phase, RigolDG1000Z.trigger_burst,
    SiglentSDG1000X.set_amplitude, SiglentSDG1000X.set_burst_delay,
    SiglentSDG1000X.set_burst_mode, SiglentSDG1000X.set_burst_period,
    SiglentSDG1000X.set_burst_state, SiglentSDG1000X.set_burst_trigger_source,
    SiglentSDG1000X.set_frequency, SiglentSDG1000X.set_offset,
    SiglentSDG1000X.set_output, SiglentSDG1000X.set_output_load,
    SiglentSDG1000X.set_phase, SiglentSDG1000X.set_waveform,
    SiglentSDG1000X.sync_phase, SiglentSDG1000X.trigger_burst.

(** Decide the next check of the chain. *)
Ltac next_check :=
  match goal with
  | |- context [if ?b then _ else _] =>
      lazymatch b with
      | context [if _ then _ else _] => fail
      | _ => let E := fresh "E" in destruct b eqn:E
      end
  | |- context [match ?x with PyNone => _ | _ => _ end] => is_var x; destruct x
  end.

Ltac run_attempt :=
  first [rewrite try_write_reraise | rewrite try_write_swallow].

(** The call is turned down / goes through to the transport. *)
Ltac turned_down :=
  left; eexists; split; [ | split; [ | intros ?; reflexivity ] ]; reflexivity.

Ltac goes_through :=
  right; do 3 eexists; split; [reflexivity | intros ?; run_attempt; reflexivity].

Section Claims.
Context {RT : Runtime}.

(** Every call is either turned down by a check, leaving the world as it
    was, or comes to exactly one [write]: the result and the log entry are
    then decided by the transport and by whether the [except] block ends in
    [raise]. *)
Lemma invoke_cases (v : vendor) (c : call) :
  (exists e, is_validation_error e = true /\ fails_validation v c = true /\
             forall w, invoke v c w = (Raise e, w))
  \/ (exists cmd dbg err, fails_validation v c = false /\
        forall w, invoke v c w =
          match awg_write cmd (device w) with
          | (None, d) => (Return tt, World d (trace w ++ [Write cmd; LogDebug dbg]))
          | (Some e, d) =>
              (if reraises c then Raise e else Return tt,
               World d (trace w ++ [Write cmd; LogError (err e)]))
          end).
Proof.
  destruct v, c; unfold_methods; unfold fails_validation, wrong_enumeration;
    cbn [channel_of checks_channel wrong_type out_of_range symbolic_argument reraises];
    cbv zeta; repeat next_check; cbn [andb orb negb];
    first [turned_down | goes_through].
Qed.

(** On a transport failure the outcome is decided by [reraises] alone. *)
Lemma transport_failure_policy (v : vendor) (c : call) (w : world) :
  fails_validation v c = false ->
  exists cmd err,
    forall e d, awg_write cmd (device w) = (Some e, d) ->
      invoke v c w =
        (if reraises c then Raise e else Return tt,
         World d (trace w ++ [Write cmd; LogError (err e)])).
Proof.
  intros Hpass.
  destruct (invoke_cases v c) as [(e & _ & Hfail & _) | (cmd & dbg & err & _ & Hrun)].
  - congruence.
  - exists cmd, err. intros e d Hw. rewrite Hrun, Hw. reflexivity.
Qed.

(** The documentation and the code agree on every call but [trigger_burst]. *)
Lemma documented_policy (c : call) :
  (forall ch, c <> Trigger_burst ch) -> reraises c = documented_to_propagate c.
Proof. destruct c; intros H; try reflexivity. destruct (H channel eq_refl). Qed.

(** C1 (the code departs from the claim). On a write failure
    [trigger_burst], of either class and on a valid channel, logs the error
    and returns [None]: the exception is not handed on to the caller,
    although the claim and the docstring of the method say it is. *)
Theorem trigger_burst_swallows_write_failure
    (ch : pyval) (w : world) (e : exn) (d : conn) :
  ch = PyInt 1 \/ ch = PyInt 2 ->
  (awg_write ("SOUR" +:+ py_str ch +:+ ":BURS:TRIG") (device w) = (Some e, d) ->
   RigolDG1000Z.trigger_burst ch w =
     (Return tt,
      World d (trace w ++
        [Write ("SOUR" +:+ py_str ch +:+ ":BURS:TRIG");
         LogError ("Failed to trigger the burst on channel " +:+ py_str ch
                   +:+ ": " +:+ exn_str e)])))
  /\
  (awg_write ("C" +:+ py_str ch +:+ ":BTWV MTRIG") (device w) = (Some e, d) ->
   SiglentSDG1000X.trigger_burst ch w =
     (Return tt,
      World d (trace w ++
        [Write ("C" +:+ py_str ch +:+ ":BTWV MTRIG");
         LogError ("Failed to trigger the burst on channel " +:+ py_str ch
                   +:+ ": " +:+ exn_str e)]))).
Proof.
  intros Hch.
  assert (Hok : invalid_channel ch = false) by (destruct Hch; subst; reflexivity).
  split; intros Hw.
  - unfold RigolDG1000Z.trigger_burst. rewrite Hok, try_write_swallow, Hw. reflexivity.
  - unfold SiglentSDG1000X.trigger_burst. rewrite Hok, try_write_swallow, Hw. reflexivity.
Qed.

Lemma channel_check (v : vendor) (c : call) (w : world) :
  checks_channel v c = true -> invalid_channel (channel_of c) = true ->
  invoke v c w = (Raise (InvalidChannelNumber (channel_of c)), w).
Proof.
  intros Hchecks Hbad.
  destruct v, c; try discriminate Hchecks;
    cbn [channel_of] in Hbad |- *; unfold_methods; rewrite Hbad; reflexivity.
Qed.

(** C2 (as amended). Every operation that checks its channel, that is every
    one of the fourteen operations of both classes except
    [SiglentSDG1000X.sync_phase], raises [InvalidChannelNumber] on a channel
    that is not the integer 1 or 2, and leaves the world as it was: no
    command is formatted or written and nothing is logged. *)
Theorem invalid_channel_rejected (v : vendor) (c : call) (w : world) :
  checks_channel v c = true ->
  channel_of c <> PyInt 1 -> channel_of c <> PyInt 2 ->
  invoke v c w = (Raise (InvalidChannelNumber (channel_of c)), w).
Proof.
  intros Hchecks H1 H2.
  apply channel_check; [assumption | ].
  apply invalid_channel_spec; split; assumption.
Qed.

Lemma rejected_before_transport (v : vendor) (c : call) (w : world) :
  fails_validation v c = true ->
  exists e, is_validation_error e = true /\ invoke v c w = (Raise e, w).
Proof.
  intros Hfail.
  destruct (invoke_cases v c) as [(e & He & _ & Hrun) | (cmd & dbg & err & Hpass & _)].
  - exists e. split; [assumption | apply Hrun].
  - congruence.
Qed.

(** C5. When a call fails validation (invalid channel, wrong argument type,
    out-of-range value or wrong enumeration) it raises a validation error
    and the world is untouched: nothing was handed to the transport. *)
Theorem validation_failure_sends_nothing (v : vendor) (c : call) (w : world) :
  fails_validation v c = true ->
  exists e, is_validation_error e = true /\ invoke v c w = (Raise e, w).
Proof. apply rejected_before_transport. Qed.


(** C9. A symbolic argument that is not a member of the enumeration declared
    for it (for that vendor) is never turned into a command: the call raises
    with the world untouched; and when the other arguments are valid, what
    it raises is a [TypeError] whose message names the expected
    enumeration. *)
Theorem wrong_enumeration_rejected
    (v : vendor) (c : call) (enum : string) (w : world) :
  symbolic_argument v c = Some (enum, false) ->
  (exists e, is_validation_error e = true /\ invoke v c w = (Raise e, w))
  /\
  (invalid_channel (channel_of c) = false ->
   wrong_type c = false -> out_of_range c = false ->
   exists e, type_error_naming enum e = true /\ invoke v c w = (Raise e, w)).
Proof.
  intros Hsym. split.
  - apply rejected_before_transport.
    unfold fails_validation, wrong_enumeration. rewrite Hsym.
    cbn [negb]. rewrite orb_true_r. reflexivity.
  - intros Hch Hty Hrange.
    destruct v, c; try discriminate Hsym;
      cbn [symbolic_argument channel_of wrong_type out_of_range] in *;
      unfold_methods; rewrite Hch; try rewrite Hty; try rewrite Hrange;
      repeat next_check; try discriminate Hsym;
      injection Hsym as <-; eexists; (split; [ | reflexivity]); reflexivity.
Qed.

(** C10 (as amended). A [bool] is never taken for a number: every operation
    that checks its channel raises [InvalidChannelNumber] on a [bool]
    channel, and on a valid channel a [bool] amplitude, frequency, delay,
    period, phase or offset raises a [TypeError]; the world is untouched. *)
Theorem bool_rejected (v : vendor) (c : call) (b : bool) (w : world) :
  (checks_channel v c = true -> channel_of c = PyBool b ->
   invoke v c w = (Raise (InvalidChannelNumber (PyBool b)), w))
  /\
  (forall name,
   channel_of c = PyInt 1 \/ channel_of c = PyInt 2 ->
   numeric_argument c = Some (name, PyBool b) ->
   invoke v c w =
     (Raise (TypeError ("'" +:+ name +:+ "' must be float or int; received <class 'bool'>")),
      w)).
Proof.
  split.
  - intros Hchecks Hch. rewrite <- Hch. apply channel_check; [assumption | ].
    rewrite Hch. reflexivity.
  - intros name Hch Harg.
    assert (Hok : invalid_channel (channel_of c) = false)
      by (destruct Hch as [-> | ->]; reflexivity).
    destruct v, c; try discriminate Harg;
      cbn [numeric_argument channel_of] in *;
      injection Harg as <- ->; unfold_methods; rewrite Hok; reflexivity.
Qed.

(** C8. The high-impedance sentinel, under either of its two names, is sent
    as [INF] by the Rigol class and as [HZ] by the Siglent class. *)
Theorem output_load_sentinel (n : Z) (l : OutputLoad.t) (w : world) :
  n = 1 \/ n = 2 ->
  sent_by (RigolDG1000Z.set_output_load (PyInt n) (PyOutputLoad l)) w =
    commands (trace w) ++ ["OUTP" +:+ str_int n +:+ ":LOAD INF"]
  /\
  sent_by (SiglentSDG1000X.set_output_load (PyInt n) (PyOutputLoad l)) w =
    commands (trace w) ++ ["C" +:+ str_int n +:+ ":OUTP LOAD,HZ"].
Proof.
  intros Hn.
  assert (Hok : invalid_channel (PyInt n) = false)
    by (destruct Hn as [-> | ->]; reflexivity).
  unfold sent_by, RigolDG1000Z.set_output_load, SiglentSDG1000X.set_output_load.
  rewrite Hok. cbn [not_float_nor_int isinstance_OutputLoad andb negb].
  cbv zeta. rewrite !try_write_swallow.
  split; destruct l; cbn [py_eq_load OutputLoad.eqb orb py_str];
    match goal with |- context [awg_write ?c ?d] =>
      destruct (awg_write c d) as [[e|] d'] end;
    cbn [snd trace]; rewrite commands_app; reflexivity.
Qed.


End Claims.


(** ** Comparing a float with the integer constants of the drivers

    The drivers compare a float with an [int] constant; the interpreter
    turns the constant into a float and compares floats.  For a binary64
    number this is the order of the numbers themselves. *)

Lemma digits2_pos_bounds (m : positive) :
  2 ^ (Z.pos (digits2_pos m) - 1) <= Z.pos m < 2 ^ Z.pos (digits2_pos m).
Proof.
  induction m as [p IH | p IH | ]; cbn [digits2_pos].
  - rewrite Pos2Z.inj_succ. change (Z.pos p~1) with (2 * Z.pos p + 1).
    replace (Z.succ (Z.pos (digits2_pos p)) - 1) with (Z.succ (Z.pos (digits2_pos p) - 1)) by lia.
    rewrite !Z.pow_succ_r by lia. lia.
  - rewrite Pos2Z.inj_succ. change (Z.pos p~0) with (2 * Z.pos p).
    replace (Z.succ (Z.pos (digits2_pos p)) - 1) with (Z.succ (Z.pos (digits2_pos p) - 1)) by lia.
    rewrite !Z.pow_succ_r by lia. lia.
  - cbn. lia.
Qed.

(** The mantissa of a binary64 number has at most 53 bits, and exactly 53
    unless the exponent is the least one. *)
Lemma bounded_mantissa (m : positive) (e : Z) :
  bounded prec emax m e = true ->
  -1074 <= e /\ Z.pos m < 2 ^ 53 /\ (-1074 < e -> 2 ^ 52 <= Z.pos m).
Proof.
  unfold bounded, canonical_mantissa, fexp, emin, prec, emax.
  intros H. apply andb_true_iff in H as [H _]. apply Z.eqb_eq in H.
  pose proof (digits2_pos_bounds m) as [Hlo Hhi].
  set (d := Z.pos (digits2_pos m)) in *.
  assert (Hd : 0 < d) by (unfold d; lia).
  split; [lia | split].
  - assert (d <= 53) by lia.
    apply Z.lt_le_trans with (2 ^ d); [assumption | ].
    apply Z.pow_le_mono_r; lia.
  - intros He. assert (d = 53) by lia. subst d.
    replace 52 with (Z.pos (digits2_pos m) - 1) by lia. assumption.
Qed.

Lemma compare_cont_Z (m n : positive) :
  Pos.compare_cont Eq m n = (Z.pos m ?= Z.pos n).
Proof. reflexivity. Qed.

(** Two positive floats, the second one with a full mantissa: comparing
    exponents, then mantissas, is comparing the numbers. *)
Lemma compare_finite_pos (m : positive) (e : Z) (mc : positive) (ec k : Z) :
  bounded prec emax m e = true ->
  2 ^ 52 <= Z.pos mc < 2 ^ 53 -> -1074 <= ec < 0 -> Z.pos mc = k * 2 ^ (- ec) ->
  SFcompare (S754_finite false m e) (S754_finite false mc ec) =
  float_cmp_Z (S754_finite false m e) k.
Proof.
  intros Hb Hmc Hec Hk.
  apply bounded_mantissa in Hb as (Hemin & Hm & Hnormal).
  cbn [SFcompare float_cmp_Z]. rewrite compare_cont_Z. f_equal.
  assert (Hkpos : 0 < k).
  { assert (0 < 2 ^ (- ec)) by (apply Z.pow_pos_nonneg; lia). nia. }
  destruct (Z.compare_spec e ec) as [Heq | Hlt | Hgt].
  - subst e. replace (0 <=? ec) with false by (symmetry; apply Z.leb_gt; lia).
    rewrite Hk. reflexivity.
  - replace (0 <=? e) with false by (symmetry; apply Z.leb_gt; lia).
    symmetry. apply Z.compare_lt_iff.
    replace (- e) with (- ec + (ec - e)) by lia.
    rewrite Z.pow_add_r by lia. rewrite Z.mul_assoc, <- Hk.
    assert (2 ^ 1 <= 2 ^ (ec - e)) by (apply Z.pow_le_mono_r; lia).
    change (2 ^ 1) with 2 in *. nia.
  - specialize (Hnormal ltac:(lia)).
    assert (Hk52 : k < 2 ^ 52).
    { assert (2 ^ 1 <= 2 ^ (- ec)) by (apply Z.pow_le_mono_r; lia).
      change (2 ^ 1) with 2 in *. change (2 ^ 53) with (2 * 2 ^ 52) in *. nia. }
    destruct (Z.leb_spec 0 e) as [He | He]; symmetry; apply Z.compare_gt_iff.
    + assert (0 < 2 ^ e) by (apply Z.pow_pos_nonneg; lia).
      nia.
    + replace (- ec) with (- e + (e - ec)) in Hk by lia.
      rewrite Z.pow_add_r, Z.mul_assoc in Hk by lia.
      assert (2 ^ 1 <= 2 ^ (e - ec)) by (apply Z.pow_le_mono_r; lia).
      assert (0 < 2 ^ (- e)) by (apply Z.pow_pos_nonneg; lia).
      change (2 ^ 1) with 2 in *. change (2 ^ 53) with (2 * 2 ^ 52) in *. nia.
Qed.

Lemma SFcompare_antisym (f g : spec_float) :
  SFcompare g f = option_map CompOpp (SFcompare f g).
Proof.
  destruct f as [s | s | | s m e], g as [t | t | | t n e'];
    cbn [SFcompare option_map];
    repeat match goal with b : bool |- _ => destruct b end;
    try reflexivity;
    rewrite (Z.compare_antisym e e'), !compare_cont_Z,
      (Z.compare_antisym (Z.pos m) (Z.pos n));
    destruct (e ?= e'); cbn [CompOpp]; try reflexivity;
    destruct (Z.pos m ?= Z.pos n); reflexivity.
Qed.

Lemma float_cmp_Z_opp (m : positive) (e a : Z) :
  float_cmp_Z (S754_finite true m e) (- a) =
  option_map CompOpp (float_cmp_Z (S754_finite false m e) a).
Proof.
  cbn [float_cmp_Z option_map]. f_equal.
  change (Z.neg m) with (- Z.pos m).
  destruct (0 <=? e).
  - rewrite Z.mul_opp_l, Z.compare_opp. apply Z.compare_antisym.
  - rewrite Z.mul_opp_l, Z.compare_opp. apply Z.compare_antisym.
Qed.

(** Against a constant [k] that is a float with a full mantissa and a
    negative exponent, the comparison of floats is the exact one. *)
Lemma SFcompare_constant
    (f : spec_float) (k : Z) (s : bool) (mc : positive) (ec : Z) :
  is_float64 f = true ->
  float_of_int k = S754_finite s mc ec ->
  2 ^ 52 <= Z.pos mc < 2 ^ 53 -> -1074 <= ec < 0 ->
  Z.pos mc = Z.abs k * 2 ^ (- ec) ->
  k = (if s then - Z.abs k else Z.abs k) ->
  SFcompare f (float_of_int k) = float_cmp_Z f k.
Proof.
  intros Hf Hk Hmc Hec Hval Hsign. rewrite Hk.
  assert (Hpow : 0 < 2 ^ (- ec)) by (apply Z.pow_pos_nonneg; lia).
  assert (Habs : 0 < Z.abs k) by nia.
  destruct f as [t | t | | t m e].
  - cbn [SFcompare float_cmp_Z]. f_equal. symmetry.
    destruct s; [apply Z.compare_gt_iff | apply Z.compare_lt_iff]; lia.
  - reflexivity.
  - reflexivity.
  - pose proof (compare_finite_pos m e mc ec (Z.abs k) Hf Hmc Hec Hval) as Hpos.
    destruct t, s.
    + rewrite Hsign, float_cmp_Z_opp, <- Hpos.
      cbn [SFcompare option_map]. f_equal.
      destruct (e ?= ec); reflexivity.
    + rewrite Hsign. cbn [SFcompare float_cmp_Z]. f_equal. symmetry.
      assert (0 < 2 ^ (- e) \/ 0 <= e) as [He | He]
        by (destruct (Z.le_gt_cases 0 e);
            [right; assumption | left; apply Z.pow_pos_nonneg; lia]).
      * destruct (0 <=? e) eqn:E; apply Z.compare_lt_iff.
        -- apply Z.leb_le in E.
           assert (0 < 2 ^ e) by (apply Z.pow_pos_nonneg; lia). nia.
        -- nia.
      * replace (0 <=? e) with true by (symmetry; apply Z.leb_le; assumption).
        apply Z.compare_lt_iff.
        assert (0 < 2 ^ e) by (apply Z.pow_pos_nonneg; lia). nia.
    + rewrite Hsign. cbn [SFcompare float_cmp_Z]. f_equal. symmetry.
      destruct (Z.leb_spec 0 e) as [He | He]; apply Z.compare_gt_iff.
      * assert (0 < 2 ^ e) by (apply Z.pow_pos_nonneg; lia). nia.
      * assert (0 < 2 ^ (- e)) by (apply Z.pow_pos_nonneg; lia). nia.
    + rewrite Hsign. exact Hpos.
Qed.

Lemma SFcompare_zero (f : spec_float) :
  SFcompare f (float_of_int 0) = float_cmp_Z f 0.
Proof.
  destruct f as [t | t | | t m e]; try reflexivity.
  change (float_of_int 0) with (S754_zero false).
  cbn [SFcompare float_cmp_Z]. f_equal. symmetry.
  destruct (Z.leb_spec 0 e) as [He | He], t;
    first [apply Z.compare_lt_iff | apply Z.compare_gt_iff];
    try (assert (0 < 2 ^ e) by (apply Z.pow_pos_nonneg; lia)); nia.
Qed.

(** The constants the drivers compare with *)
Lemma SFcompare_exact (f : spec_float) (k : Z) :
  is_float64 f = true -> k = -10 \/ k = 0 \/ k = 10 \/ k = 360 ->
  SFcompare f (float_of_int k) = float_cmp_Z f k.
Proof.
  intros Hf [-> | [-> | [-> | ->]]].
  - apply (SFcompare_constant f (-10) true 5629499534213120 (-49));
      try reflexivity; [assumption | | lia].
    split; [apply Z.leb_le | apply Z.ltb_lt]; reflexivity.
  - apply SFcompare_zero.
  - apply (SFcompare_constant f 10 false 5629499534213120 (-49));
      try reflexivity; [assumption | | lia].
    split; [apply Z.leb_le | apply Z.ltb_lt]; reflexivity.
  - apply (SFcompare_constant f 360 false 6333186975989760 (-44));
      try reflexivity; [assumption | | lia].
    split; [apply Z.leb_le | apply Z.ltb_lt]; reflexivity.
Qed.

Lemma py_le_constant_r (x : pyval) (k : Z) :
  is_number x = true -> k = -10 \/ k = 0 \/ k = 10 \/ k = 360 ->
  py_le x (PyInt k) =
  match number_cmp x k with Some (Lt | Eq) => true | _ => false end.
Proof.
  intros Hx Hk. destruct x; try discriminate Hx; cbn [py_le number_cmp].
  - unfold Z.leb. destruct (z ?= k); reflexivity.
  - unfold SFleb. rewrite SFcompare_exact by assumption. reflexivity.
Qed.

Lemma py_le_constant_l (x : pyval) (k : Z) :
  is_number x = true -> k = -10 \/ k = 0 \/ k = 10 \/ k = 360 ->
  py_le (PyInt k) x =
  match number_cmp x k with Some (Gt | Eq) => true | _ => false end.
Proof.
  intros Hx Hk. destruct x; try discriminate Hx; cbn [py_le number_cmp].
  - unfold Z.leb. rewrite (Z.compare_antisym z k). destruct (z ?= k); reflexivity.
  - unfold SFleb. rewrite SFcompare_antisym, SFcompare_exact by assumption.
    destruct (float_cmp_Z f k) as [[ | | ] | ]; reflexivity.
Qed.

(** The range check of the drivers decides membership in the interval. *)
Lemma range_check (lo hi : Z) (x : pyval) :
  is_number x = true ->
  lo = -10 \/ lo = 0 \/ lo = 10 \/ lo = 360 ->
  hi = -10 \/ hi = 0 \/ hi = 10 \/ hi = 360 ->
  py_le (PyInt lo) x && py_le x (PyInt hi) = in_interval lo hi x.
Proof.
  intros Hx Hlo Hhi.
  rewrite py_le_constant_l, py_le_constant_r by assumption.
  unfold in_interval.
  destruct (number_cmp x lo) as [[ | | ] | ], (number_cmp x hi) as [[ | | ] | ];
    reflexivity.
Qed.

Lemma is_number_abs (x : pyval) : is_number (py_abs x) = is_number x.
Proof. destruct x; try reflexivity. destruct f; reflexivity. Qed.

Lemma is_number_checked (x : pyval) : is_number x = true -> not_float_nor_int x = false.
Proof. destruct x; try discriminate; reflexivity. Qed.

Section Ranges.
Context {RT : Runtime}.

(** C6. On a valid channel and for an amplitude of type [int] or [float]:
    outside the closed interval from -10 to 10 (NaN included) the call
    raises [ValueError] and nothing is sent; inside it, and with a unit of
    [AmplitudeUnit], the command is sent; -10 and 10 are inside. *)
Theorem amplitude_range (v : vendor) (n : Z) (a unit : pyval) (w : world) :
  n = 1 \/ n = 2 -> is_number a = true ->
  (in_interval (-10) 10 a = false ->
   invoke v (Set_amplitude (PyInt n) a unit) w =
     (Raise (ValueError "'amplitude' must be between -/+ 10"), w))
  /\
  (in_interval (-10) 10 a = true ->
   forall u, unit = PyAmplitudeUnit u ->
   sent_by (invoke v (Set_amplitude (PyInt n) a unit)) w =
     commands (trace w) ++
       [match v with
        | Rigol => "SOUR" +:+ str_int n +:+ ":VOLT " +:+ py_str a +:+ AmplitudeUnit.value u
        | Siglent => "C" +:+ str_int n +:+ ":BSWV AMP," +:+ py_str a
        end])
  /\
  in_interval (-10) 10 (PyInt (-10)) = true /\
  in_interval (-10) 10 (PyInt 10) = true /\
  in_interval (-10) 10 (PyFloat (float_of_int (-10))) = true /\
  in_interval (-10) 10 (PyFloat (float_of_int 10)) = true.
Proof.
  intros Hn Ha.
  assert (Hok : invalid_channel (PyInt n) = false)
    by (destruct Hn as [-> | ->]; reflexivity).
  pose proof (is_number_checked a Ha) as Hty.
  pose proof (range_check (-10) 10 a Ha ltac:(lia) ltac:(lia)) as Hrange.
  split; [ | split; [ | repeat split ] ].
  - intros Hout. destruct v; unfold_methods;
      rewrite Hok, Hty, Hrange, Hout; reflexivity.
  - intros Hin u ->. unfold sent_by. destruct v; unfold_methods;
      rewrite Hok, Hty, Hrange, Hin; cbn [negb]; rewrite try_write_reraise;
      match goal with |- context [awg_write ?c ?d] =>
        destruct (awg_write c d) as [[e|] d'] end;
      cbn [snd trace]; rewrite commands_app; reflexivity.
Qed.

(** C7. On a valid channel and for a phase of type [int] or [float]: when
    the absolute value of the phase is outside the closed interval from 0 to
    360 (NaN included) the call raises [ValueError] and nothing is sent;
    when it is inside, the command is sent; 0 and 360 are inside. *)
Theorem phase_range (v : vendor) (n : Z) (phase : pyval) (w : world) :
  n = 1 \/ n = 2 -> is_number phase = true ->
  (in_interval 0 360 (py_abs phase) = false ->
   invoke v (Set_phase (PyInt n) phase) w =
     (Raise (ValueError "'phase' must be between 0 and 360"), w))
  /\
  (in_interval 0 360 (py_abs phase) = true ->
   sent_by (invoke v (Set_phase (PyInt n) phase)) w =
     commands (trace w) ++
       [match v with
        | Rigol => "SOUR" +:+ str_int n +:+ ":PHAS " +:+ py_str phase
        | Siglent => "C" +:+ str_int n +:+ ":BSWV PHSE," +:+ py_str phase
        end])
  /\
  in_interval 0 360 (py_abs (PyInt 0)) = true /\
  in_interval 0 360 (py_abs (PyInt 360)) = true /\
  in_interval 0 360 (py_abs (PyFloat (float_of_int 0))) = true /\
  in_interval 0 360 (py_abs (PyFloat (float_of_int 360))) = true.
Proof.
  intros Hn Hp.
  assert (Hok : invalid_channel (PyInt n) = false)
    by (destruct Hn as [-> | ->]; reflexivity).
  pose proof (is_number_checked phase Hp) as Hty.
  assert (Habs : is_number (py_abs phase) = true) by (rewrite is_number_abs; exact Hp).
  pose proof (range_check 0 360 (py_abs phase) Habs ltac:(lia) ltac:(lia)) as Hrange.
  split; [ | split; [ | repeat split ] ].
  - intros Hout. destruct v; unfold_methods;
      rewrite Hok, Hty, Hrange, Hout; reflexivity.
  - intros Hin. unfold sent_by. destruct v; unfold_methods;
      rewrite Hok, Hty, Hrange, Hin; cbn [negb]; rewrite try_write_reraise;
      match goal with |- context [awg_write ?c ?d] =>
        destruct (awg_write c d) as [[e|] d'] end;
      cbn [snd trace]; rewrite commands_app; reflexivity.
Qed.

End Ranges.


(** ** The query parser *)

Lemma split_free (c : ascii) (s : string) :
  free_of c s = true -> split c s = [s].
Proof.
  induction s as [ | a s IH]; cbn [free_of split]; [reflexivity | ].
  intros H. apply andb_true_iff in H as [Ha Hs]. apply negb_true_iff in Ha.
  rewrite Ha, (IH Hs). reflexivity.
Qed.

Lemma append_nil (s : string) : "" +:+ s = s.
Proof. reflexivity. Qed.

Lemma append_cons (a : ascii) (s t : string) : String a s +:+ t = String a (s +:+ t).
Proof. reflexivity. Qed.

Lemma split_append (c : ascii) (s t : string) :
  free_of c s = true -> split c (s +:+ String c t) = s :: split c t.
Proof.
  induction s as [ | a s IH]; cbn [free_of].
  - intros _. rewrite append_nil. cbn [split]. rewrite Ascii.eqb_refl. reflexivity.
  - intros H. apply andb_true_iff in H as [Ha Hs]. apply negb_true_iff in Ha.
    rewrite append_cons. cbn [split]. rewrite Ha, (IH Hs). reflexivity.
Qed.

Lemma split_join (c : ascii) (l : list string) :
  l <> [] -> Forall (fun s => free_of c s = true) l -> split c (join c l) = l.
Proof.
  induction l as [ | x l IH]; [congruence | ]. intros _ Hall.
  inversion Hall as [ | ? ? Hx Hl]; subst.
  destruct l as [ | y l].
  - apply split_free. assumption.
  - change (join c (x :: y :: l)) with (x +:+ String c (join c (y :: l))).
    rewrite split_append by assumption. f_equal. apply IH; [discriminate | assumption].
Qed.

Lemma free_of_append (c : ascii) (s t : string) :
  free_of c (s +:+ t) = free_of c s && free_of c t.
Proof.
  induction s as [ | a s IH]; [reflexivity | ].
  rewrite append_cons. cbn [free_of]. rewrite IH, andb_assoc. reflexivity.
Qed.

Lemma free_of_join (c sep : ascii) (l : list string) :
  Ascii.eqb sep c = false -> Forall (fun s => free_of c s = true) l ->
  free_of c (join sep l) = true.
Proof.
  intros Hsep. induction l as [ | x l IH]; [reflexivity | ]. intros Hall.
  inversion Hall as [ | ? ? Hx Hl]; subst.
  destruct l as [ | y l]; [assumption | ].
  change (join sep (x :: y :: l)) with (x +:+ String sep (join sep (y :: l))).
  rewrite free_of_append, Hx. cbn [free_of andb]. rewrite Hsep. cbn [negb andb].
  apply IH. assumption.
Qed.

Lemma lstrip_free (c : ascii) (s : string) : free_of c s = true -> lstrip c s = s.
Proof.
  destruct s as [ | a s]; cbn [free_of lstrip]; [reflexivity | ].
  intros H. apply andb_true_iff in H as [Ha _]. apply negb_true_iff in Ha.
  rewrite Ha. reflexivity.
Qed.

Lemma rstrip_free (c : ascii) (s : string) : free_of c s = true -> rstrip c s = s.
Proof.
  induction s as [ | a s IH]; cbn [free_of rstrip]; [reflexivity | ].
  intros H. apply andb_true_iff in H as [Ha Hs]. apply negb_true_iff in Ha.
  rewrite (IH Hs), Ha. destruct s; reflexivity.
Qed.

Lemma strip_free (c : ascii) (s : string) : free_of c s = true -> strip c s = s.
Proof.
  intros H. unfold strip. rewrite (lstrip_free c s H). apply rstrip_free, H.
Qed.

Lemma evens_fields (kvs : list (string * string)) :
  evens (flat_map (fun kv => [kv.1; kv.2]) kvs) = map fst kvs.
Proof. induction kvs as [ | [k v] kvs IH]; cbn; [reflexivity | rewrite <- IH; reflexivity]. Qed.

Lemma odds_fields (kvs : list (string * string)) :
  odds (flat_map (fun kv => [kv.1; kv.2]) kvs) = map snd kvs.
Proof. induction kvs as [ | [k v] kvs IH]; cbn; [reflexivity | rewrite <- IH; reflexivity]. Qed.

Lemma zip_fst_snd (kvs : list (string * string)) :
  zip (map fst kvs) (map snd kvs) = kvs.
Proof. induction kvs as [ | [k v] kvs IH]; cbn; [reflexivity | rewrite IH; reflexivity]. Qed.

(** [dict] keeps, for every key, the value of its last pair. *)
Lemma foldl_insert_lookup (kvs : list (string * string)) (d : gmap string string)
    (key : string) :
  foldl (fun d kv => <[kv.1 := kv.2]> d) d kvs !! key =
  match value_of key kvs with
  | Some v => Some v
  | None => d !! key
  end.
Proof.
  revert d. induction kvs as [ | [k v] kvs IH]; intros d; cbn [foldl value_of];
    [reflexivity | ].
  rewrite IH. destruct (value_of key kvs); [reflexivity | ].
  cbn [fst snd]. destruct (String.eqb_spec k key) as [-> | Hne].
  - apply lookup_insert_eq.
  - apply lookup_insert_ne. assumption.
Qed.

Lemma dict_lookup (kvs : list (string * string)) (key : string) :
  dict kvs !! key = value_of key kvs.
Proof.
  unfold dict. rewrite foldl_insert_lookup.
  destruct (value_of key kvs); [reflexivity | apply lookup_empty].
Qed.

(** What the parser makes of a well-formed response *)
Lemma parse_response (hdr : string) (kvs : list (string * string)) :
  free_of " "%char hdr = true ->
  Forall (fun kv => plain kv.1 = true /\ plain kv.2 = true) kvs ->
  exists response,
    split " "%char (hdr +:+ String " "%char (response_body kvs)) = [hdr; response] /\
    let fields := split ","%char (strip "'"%char response) in
    forall key, dict (zip (evens fields) (odds fields)) !! key = value_of key kvs.
Proof.
  intros Hhdr Hkvs. exists (response_body kvs).
  set (fields := flat_map (fun kv => [kv.1; kv.2]) kvs).
  assert (Hplain : Forall (fun s => plain s = true) fields).
  { unfold fields. induction Hkvs as [ | [k v] kvs [Hk Hv] _ IH]; cbn; auto. }
  assert (Hfree : forall c, (c = "," \/ c = " " \/ c = "'")%char ->
                    Forall (fun s => free_of c s = true) fields).
  { intros c Hc. eapply Forall_impl; [exact Hplain | ]. cbn. intros s Hs.
    unfold plain in Hs. apply andb_true_iff in Hs as [Hs H3].
    apply andb_true_iff in Hs as [H1 H2].
    destruct Hc as [-> | [-> | ->]]; assumption. }
  split.
  - rewrite split_append by assumption. f_equal. apply split_free.
    apply free_of_join; [reflexivity | apply Hfree; auto].
  - cbv zeta. intros key. rewrite strip_free
      by (apply free_of_join; [reflexivity | apply Hfree; auto]).
    destruct kvs as [ | kv kvs].
    + reflexivity.
    + unfold response_body. fold fields.
      rewrite split_join; [ | destruct kv; discriminate | apply Hfree; auto].
      unfold fields. rewrite evens_fields, odds_fields, zip_fst_snd.
      apply dict_lookup.
Qed.

Section Parser.
Context {RT : Runtime}.

(** C3 (as amended). On a well-formed response, [header k1,v1,k2,v2,...]
    with keys and values free of commas, spaces and apostrophes,
    [get_channel_wave_parameter] returns, for each of the eight parameter
    names, the value the response gives for its key, and [None] when the
    response does not have the key; for a name that is not one of the eight
    it logs the error and raises [KeyError]. *)
Theorem query_parser
    (ch : pyval) (hdr : string) (kvs : list (string * string)) (d : conn) (w : world) :
  free_of " "%char hdr = true ->
  Forall (fun kv => plain kv.1 = true /\ plain kv.2 = true) kvs ->
  awg_query ("C" +:+ py_str ch +:+ "BSWV?") (device w) =
    (inr (hdr +:+ " " +:+ response_body kvs), d) ->
  (forall name key, In (name, key) supported_parameters ->
   SiglentSDG1000X.get_channel_wave_parameter ch name w =
     (Return match value_of key kvs with
             | Some v => PyStr v
             | None => PyNone
             end,
      World d (trace w ++ [Query ("C" +:+ py_str ch +:+ "BSWV?")])))
  /\
  (forall name, ~ In name (map fst supported_parameters) ->
   SiglentSDG1000X.get_channel_wave_parameter ch name w =
     (Raise (KeyError name),
      World d (trace w ++
        [Query ("C" +:+ py_str ch +:+ "BSWV?");
         LogError ("Failed to retrieve parameter and/or its value: "
                   +:+ exn_str (KeyError name))]))).
Proof.
  intros Hhdr Hkvs Hq.
  destruct (parse_response hdr kvs Hhdr Hkvs) as (response & Hsplit & Hdict).
  cbv zeta in Hdict.
  change (hdr +:+ " " +:+ response_body kvs)
    with (hdr +:+ String " "%char (response_body kvs)) in Hq.
  split.
  - intros name key Hin.
    unfold SiglentSDG1000X.get_channel_wave_parameter, try_except, bind, query.
    rewrite Hq. cbv beta iota zeta. rewrite Hsplit. cbv beta iota zeta.
    unfold dict_get. rewrite !Hdict.
    cbn [supported_parameters In] in Hin.
    repeat (destruct Hin as [[= <- <-] | Hin]; [reflexivity | ]).
    destruct Hin.
  - intros name Hout.
    unfold SiglentSDG1000X.get_channel_wave_parameter, try_except, bind, query.
    rewrite Hq. cbv beta iota zeta. rewrite Hsplit. cbv beta iota zeta.
    rewrite not_elem_of_list_to_map_1.
    + unfold raise, logging_error, emit. cbn [trace device].
      rewrite <- app_assoc. reflexivity.
    + intros Hin. apply Hout. apply list_elem_of_In in Hin. exact Hin.
Qed.

End Parser.


(** ** The theorems at work on the two concrete links *)

(** C1: [trigger_burst] on the dead link returns normally, with the timeout
    only logged. *)
Lemma trigger_burst_swallows_write_failure_witness :
  (PyInt 1 = PyInt 1 \/ PyInt 1 = PyInt 2) /\
  RigolDG1000Z.trigger_burst (RT := dead_link) (PyInt 1) (start dead_link tt) =
    (Return tt,
     World (RT := dead_link) tt [Write "SOUR1:BURS:TRIG";
               LogError "Failed to trigger the burst on channel 1: timeout"]) /\
  SiglentSDG1000X.trigger_burst (RT := dead_link) (PyInt 1) (start dead_link tt) =
    (Return tt,
     World (RT := dead_link) tt [Write "C1:BTWV MTRIG";
               LogError "Failed to trigger the burst on channel 1: timeout"]).
Proof.
  split; [left; reflexivity | ].
  destruct (trigger_burst_swallows_write_failure (RT := dead_link)
              (PyInt 1) (start dead_link tt) timeout tt (or_introl eq_refl)) as [HR HS].
  split; [apply HR | apply HS]; reflexivity.
Defined.

(** C2, the claim as stated fails: [SiglentSDG1000X.sync_phase] on channel 3
    raises nothing and sends its command. *)
Lemma siglent_sync_phase_ignores_channel :
  PyInt 3 <> PyInt 1 /\ PyInt 3 <> PyInt 2 /\
  SiglentSDG1000X.sync_phase (RT := good_link) (PyInt 3) (start good_link tt) =
    (Return tt,
     World (RT := good_link) tt [Write "EQPHASE";
               LogDebug "Phases of both the channels have been synchronized"]).
Proof. repeat split; discriminate. Qed.

Lemma invalid_channel_rejected_witness :
  checks_channel Rigol (Sync_phase (PyInt 3)) = true /\
  PyInt 3 <> PyInt 1 /\ PyInt 3 <> PyInt 2 /\
  invoke (RT := good_link) Rigol (Sync_phase (PyInt 3)) (start good_link tt) =
    (Raise (InvalidChannelNumber (PyInt 3)), start good_link tt).
Proof.
  split; [reflexivity | split; [discriminate | split; [discriminate | ] ] ].
  apply (invalid_channel_rejected (RT := good_link) Rigol (Sync_phase (PyInt 3)));
    [reflexivity | discriminate | discriminate].
Defined.

(** C3, the claim as stated fails: the sample response has no [PHSE] key,
    and asking for the phase returns [None] without any error. *)
Lemma absent_key_returns_None :
  value_of "PHSE" sample_pairs = None /\
  SiglentSDG1000X.get_channel_wave_parameter (RT := good_link)
      (PyInt 1) "phase" (start good_link tt) =
    (Return PyNone, World (RT := good_link) tt [Query "C1BSWV?"]).
Proof. split; reflexivity. Qed.

Lemma query_parser_witness :
  free_of " "%char "C1:BSWV" = true /\
  Forall (fun kv => plain kv.1 = true /\ plain kv.2 = true) sample_pairs /\
  awg_query (Runtime := good_link) "C1BSWV?" tt =
    (inr ("C1:BSWV" +:+ " " +:+ response_body sample_pairs), tt) /\
  SiglentSDG1000X.get_channel_wave_parameter (RT := good_link)
      (PyInt 1) "low_level" (start good_link tt) =
    (Return (PyStr "-2V"), World (RT := good_link) tt [Query "C1BSWV?"]) /\
  SiglentSDG1000X.get_channel_wave_parameter (RT := good_link)
      (PyInt 1) "voltage" (start good_link tt) =
    (Raise (KeyError "voltage"),
     World (RT := good_link) tt [Query "C1BSWV?";
               LogError "Failed to retrieve parameter and/or its value: 'voltage'"]).
Proof.
  assert (Hplain : Forall (fun kv => plain kv.1 = true /\ plain kv.2 = true) sample_pairs)
    by (repeat constructor).
  split; [reflexivity | split; [exact Hplain | split; [reflexivity | ] ] ].
  destruct (query_parser (RT := good_link) (PyInt 1) "C1:BSWV" sample_pairs tt (start good_link tt)
              eq_refl Hplain eq_refl) as [Hknown Hunknown].
  split.
  - apply (Hknown "low_level" "LLEV"). cbn. tauto.
  - apply (Hunknown "voltage"). cbn. intros H.
    repeat (destruct H as [H | H]; [discriminate H | ]). exact H.
Defined.


Lemma validation_failure_sends_nothing_witness :
  fails_validation Rigol (Set_phase (PyInt 1) (PyInt 400)) = true /\
  exists e, is_validation_error e = true /\
    invoke (RT := good_link) Rigol (Set_phase (PyInt 1) (PyInt 400)) (start good_link tt) =
      (Raise e, start good_link tt).
Proof.
  split; [reflexivity | ].
  apply (validation_failure_sends_nothing (RT := good_link)). reflexivity.
Defined.

Lemma amplitude_range_witness :
  (1 = 1 \/ 1 = 2) /\ is_number (PyInt 11) = true /\
  in_interval (-10) 10 (PyInt 11) = false /\
  invoke (RT := good_link) Siglent
      (Set_amplitude (PyInt 1) (PyInt 11) (PyAmplitudeUnit AmplitudeUnit.VPP)) (start good_link tt) =
    (Raise (ValueError "'amplitude' must be between -/+ 10"), start good_link tt).
Proof.
  split; [left; reflexivity | split; [reflexivity | split; [reflexivity | ] ] ].
  apply (amplitude_range (RT := good_link) Siglent 1 (PyInt 11)
           (PyAmplitudeUnit AmplitudeUnit.VPP) (start good_link tt) (or_introl eq_refl) eq_refl).
  reflexivity.
Defined.

Lemma phase_range_witness :
  (2 = 1 \/ 2 = 2) /\ is_number (PyInt (-361)) = true /\
  in_interval 0 360 (py_abs (PyInt (-361))) = false /\
  invoke (RT := good_link) Rigol (Set_phase (PyInt 2) (PyInt (-361))) (start good_link tt) =
    (Raise (ValueError "'phase' must be between 0 and 360"), start good_link tt).
Proof.
  split; [right; reflexivity | split; [reflexivity | split; [reflexivity | ] ] ].
  apply (phase_range (RT := good_link) Rigol 2 (PyInt (-361)) (start good_link tt)
           (or_intror eq_refl) eq_refl).
  reflexivity.
Defined.

Lemma output_load_sentinel_witness :
  (1 = 1 \/ 1 = 2) /\
  sent_by (RigolDG1000Z.set_output_load (RT := good_link) (PyInt 1)
             (PyOutputLoad OutputLoad.INF)) (start good_link tt) = ["OUTP1:LOAD INF"] /\
  sent_by (SiglentSDG1000X.set_output_load (RT := good_link) (PyInt 1)
             (PyOutputLoad OutputLoad.INF)) (start good_link tt) = ["C1:OUTP LOAD,HZ"].
Proof.
  split; [left; reflexivity | ].
  apply (output_load_sentinel (RT := good_link) 1 OutputLoad.INF (start good_link tt)).
  left; reflexivity.
Defined.

Lemma wrong_enumeration_rejected_witness :
  let c := Set_burst_mode (PyInt 1) (PyBurstModeRigol BurstModeRigol.GATED) in
  symbolic_argument Siglent c = Some ("BurstModeSiglent", false) /\
  invalid_channel (channel_of c) = false /\ wrong_type c = false /\
  out_of_range c = false /\
  exists e, type_error_naming "BurstModeSiglent" e = true /\
    invoke (RT := good_link) Siglent c (start good_link tt) = (Raise e, start good_link tt).
Proof.
  cbv zeta.
  split; [reflexivity | split; [reflexivity | split; [reflexivity | split; [reflexivity | ] ] ] ].
  apply (wrong_enumeration_rejected (RT := good_link) Siglent
           (Set_burst_mode (PyInt 1) (PyBurstModeRigol BurstModeRigol.GATED))
           "BurstModeSiglent" (start good_link tt) eq_refl); reflexivity.
Defined.

(** C10, the claim as stated fails: [SiglentSDG1000X.sync_phase] takes
    [True] for a channel and sends its command. *)
Lemma siglent_sync_phase_accepts_bool :
  SiglentSDG1000X.sync_phase (RT := good_link) (PyBool true) (start good_link tt) =
    (Return tt,
     World (RT := good_link) tt [Write "EQPHASE";
               LogDebug "Phases of both the channels have been synchronized"]).
Proof. reflexivity. Qed.

Lemma bool_rejected_witness :
  checks_channel Rigol (Set_offset (PyBool true) (PyInt 0)) = true /\
  invoke (RT := good_link) Rigol (Set_offset (PyBool true) (PyInt 0)) (start good_link tt) =
    (Raise (InvalidChannelNumber (PyBool true)), start good_link tt) /\
  numeric_argument (Set_offset (PyInt 1) (PyBool false)) =
    Some ("offset_voltage", PyBool false) /\
  invoke (RT := good_link) Siglent (Set_offset (PyInt 1) (PyBool false)) (start good_link tt) =
    (Raise (TypeError "'offset_voltage' must be float or int; received <class 'bool'>"),
     start good_link tt).
Proof.
  split; [reflexivity | split; [ | split; [reflexivity | ] ] ].
  - apply (proj1 (bool_rejected (RT := good_link) Rigol
                    (Set_offset (PyBool true) (PyInt 0)) true (start good_link tt)));
      reflexivity.
  - apply (proj2 (bool_rejected (RT := good_link) Siglent
                    (Set_offset (PyInt 1) (PyBool false)) false (start good_link tt))
             "offset_voltage"); [left | ]; reflexivity.
Defined.


(** * Properties beyond the specification *)

Section Outcomes.
Context {RT : Runtime}.


(** X2. On a valid channel, a numeric argument (amplitude, delay, period,
    frequency, offset or phase) that is neither an [int] nor a [float], be
    it [None], a [str], a [bool] or a member of an enumeration, raises a
    [TypeError] whose message names the argument and the type received;
    nothing is sent or logged. *)
Theorem non_number_rejected
    (v : vendor) (c : call) (name : string) (x : pyval) (w : world) :
  channel_of c = PyInt 1 \/ channel_of c = PyInt 2 ->
  numeric_argument c = Some (name, x) ->
  (forall z, x <> PyInt z) -> (forall f, x <> PyFloat f) ->
  invoke v c w =
    (Raise (TypeError ("'" +:+ name +:+ "' must be float or int; received "
                       +:+ type_repr x)), w).
Proof.
  intros Hch Harg Hint Hfloat.
  assert (Hok : invalid_channel (channel_of c) = false)
    by (destruct Hch as [-> | ->]; reflexivity).
  assert (Hty : not_float_nor_int x = true).
  { destruct x; try reflexivity; [destruct (Hint z) | destruct (Hfloat f)]; reflexivity. }
  destruct v, c; try discriminate Harg;
    cbn [numeric_argument channel_of] in *;
    injection Harg as <- ->; unfold_methods; rewrite Hok, Hty; reflexivity.
Qed.

(** X3. [set_output] and [set_burst_state] take [True] and [False] only:
    any other state, the integers 0 and 1 included, raises a [TypeError]
    naming the type received, with nothing sent; [True] is sent as [ON] and
    [False] as [OFF]. *)
Theorem state_must_be_bool (v : vendor) (n : Z) (state : pyval) (w : world) :
  n = 1 \/ n = 2 ->
  ((forall b, state <> PyBool b) ->
   invoke v (Set_output (PyInt n) state) w =
     (Raise (TypeError ("'state' must be bool; received " +:+ type_repr state)), w) /\
   invoke v (Set_burst_state (PyInt n) state) w =
     (Raise (TypeError ("'state' must be bool; received " +:+ type_repr state)), w))
  /\
  (forall b, state = PyBool b ->
   sent_by (invoke v (Set_output (PyInt n) state)) w =
     commands (trace w) ++
       [match v with
        | Rigol => "OUTP" +:+ str_int n +:+ " " +:+ (if b then "ON" else "OFF")
        | Siglent => "C" +:+ str_int n +:+ ":OUTP " +:+ (if b then "ON" else "OFF")
        end] /\
   sent_by (invoke v (Set_burst_state (PyInt n) state)) w =
     commands (trace w) ++
       [match v with
        | Rigol => "SOUR" +:+ str_int n +:+ ":BURS " +:+ (if b then "ON" else "OFF")
        | Siglent => "C" +:+ str_int n +:+ ":BTWV STATE," +:+ (if b then "ON" else "OFF")
        end]).
Proof.
  intros Hn.
  assert (Hok : invalid_channel (PyInt n) = false)
    by (destruct Hn as [-> | ->]; reflexivity).
  split.
  - intros Hnot. split; destruct v; unfold_methods; rewrite Hok;
      destruct state; try reflexivity; destruct (Hnot b); reflexivity.
  - intros b ->. unfold sent_by.
    split; destruct v; unfold_methods; rewrite Hok; cbv zeta;
      rewrite try_write_swallow;
      match goal with |- context [awg_write ?c ?d] =>
        destruct (awg_write c d) as [[e|] d'] end;
      cbn [snd trace]; rewrite commands_app; destruct b; reflexivity.
Qed.

End Outcomes.


(** ** Numbers: sign, range and what is sent *)


Lemma float_cmp_Z_negative (m : positive) (e k : Z) :
  0 < k -> float_cmp_Z (S754_finite true m e) k = Some Lt.
Proof.
  intros Hk. cbn [float_cmp_Z]. f_equal.
  destruct (Z.leb_spec 0 e) as [He | He]; apply Z.compare_lt_iff.
  - assert (0 < 2 ^ e) by (apply Z.pow_pos_nonneg; lia). nia.
  - assert (0 < 2 ^ (- e)) by (apply Z.pow_pos_nonneg; lia). nia.
Qed.

Lemma float_cmp_Z_positive (m : positive) (e k : Z) :
  k <= 0 -> float_cmp_Z (S754_finite false m e) k = Some Gt.
Proof.
  intros Hk. cbn [float_cmp_Z]. f_equal.
  destruct (Z.leb_spec 0 e) as [He | He]; apply Z.compare_gt_iff.
  - assert (0 < 2 ^ e) by (apply Z.pow_pos_nonneg; lia). nia.
  - assert (0 < 2 ^ (- e)) by (apply Z.pow_pos_nonneg; lia). nia.
Qed.

(** The absolute value is at most [hi] exactly when the number lies between
    [- hi] and [hi]. *)
Lemma abs_interval (x : pyval) (hi : Z) :
  0 < hi -> in_interval 0 hi (py_abs x) = in_interval (- hi) hi x.
Proof.
  intros Hhi. destruct x; try reflexivity.
  - unfold in_interval. cbn [py_abs number_cmp].
    destruct (Z.compare_spec (Z.abs z) 0), (Z.compare_spec (Z.abs z) hi),
      (Z.compare_spec z (- hi)), (Z.compare_spec z hi); try reflexivity; lia.
  - unfold in_interval. cbn [py_abs number_cmp].
    destruct f as [s | s | | s m e]; cbn [SFabs].
    + cbn [float_cmp_Z].
      replace (0 ?= hi) with Lt by (symmetry; apply Z.compare_lt_iff; lia).
      replace (0 ?= - hi) with Gt by (symmetry; apply Z.compare_gt_iff; lia).
      reflexivity.
    + destruct s; reflexivity.
    + reflexivity.
    + rewrite (float_cmp_Z_positive m e 0) by lia.
      destruct s.
      * rewrite float_cmp_Z_opp, (float_cmp_Z_negative m e hi) by lia.
        destruct (float_cmp_Z (S754_finite false m e) hi) as [[ | | ] | ]; reflexivity.
      * rewrite (float_cmp_Z_positive m e (- hi)) by lia. reflexivity.
Qed.

Section Numbers.
Context {RT : Runtime}.




(** X7. [set_phase] takes the phases from -360 to 360, both included: the
    check is on the absolute value, so a negative phase down to -360 is sent
    with its sign, and anything beyond, or NaN, raises [ValueError]. *)
Theorem phase_accepts_negative (v : vendor) (n : Z) (phase : pyval) (w : world) :
  n = 1 \/ n = 2 -> is_number phase = true ->
  (in_interval (-360) 360 phase = false ->
   invoke v (Set_phase (PyInt n) phase) w =
     (Raise (ValueError "'phase' must be between 0 and 360"), w))
  /\
  (in_interval (-360) 360 phase = true ->
   sent_by (invoke v (Set_phase (PyInt n) phase)) w =
     commands (trace w) ++
       [match v with
        | Rigol => "SOUR" +:+ str_int n +:+ ":PHAS " +:+ py_str phase
        | Siglent => "C" +:+ str_int n +:+ ":BSWV PHSE," +:+ py_str phase
        end]).
Proof.
  intros Hn Hp.
  assert (Hok : invalid_channel (PyInt n) = false)
    by (destruct Hn as [-> | ->]; reflexivity).
  pose proof (is_number_checked phase Hp) as Hty.
  assert (Habs : is_number (py_abs phase) = true) by (rewrite is_number_abs; exact Hp).
  pose proof (range_check 0 360 (py_abs phase) Habs ltac:(lia) ltac:(lia)) as Hrange.
  rewrite (abs_interval phase 360) in Hrange by lia.
  change (- (360)) with (-360) in Hrange.
  split.
  - intros Hout. destruct v; unfold_methods;
      rewrite Hok, Hty, Hrange, Hout; reflexivity.
  - intros Hin. unfold sent_by. destruct v; unfold_methods;
      rewrite Hok, Hty, Hrange, Hin; cbn [negb]; rewrite try_write_reraise;
      match goal with |- context [awg_write ?c ?d] =>
        destruct (awg_write c d) as [[e|] d'] end;
      cbn [snd trace]; rewrite commands_app; reflexivity.
Qed.

End Numbers.


(** ** What the command tells about the symbolic argument *)

Lemma app_singleton_inv (l : list string) (a b : string) :
  l ++ [a] = l ++ [b] -> a = b.
Proof. intros H. apply app_inv_head in H. injection H as H. exact H. Qed.

Lemma AmplitudeUnit_value_inj (u u' : AmplitudeUnit.t) :
  AmplitudeUnit.value u = AmplitudeUnit.value u' -> u = u'.
Proof. destruct u, u'; intros H; first [reflexivity | discriminate H]. Qed.

Lemma FrequencyUnit_value_inj (u u' : FrequencyUnit.t) :
  FrequencyUnit.value u = FrequencyUnit.value u' -> u = u'.
Proof. destruct u, u'; intros H; first [reflexivity | discriminate H]. Qed.

Lemma WaveformType_value_inj (t t' : WaveformType.t) :
  WaveformType.value t = WaveformType.value t' -> t = t'.
Proof. destruct t, t'; intros H; first [reflexivity | discriminate H]. Qed.

Lemma BurstTriggerSource_value_inj (s s' : BurstTriggerSource.t) :
  BurstTriggerSource.value s = BurstTriggerSource.value s' -> s = s'.
Proof. destruct s, s'; intros H; first [reflexivity | discriminate H]. Qed.

Lemma BurstModeRigol_value_inj (m m' : BurstModeRigol.t) :
  BurstModeRigol.value m = BurstModeRigol.value m' -> m = m'.
Proof. destruct m, m'; intros H; first [reflexivity | discriminate H]. Qed.

Lemma BurstModeSiglent_value_inj (m m' : BurstModeSiglent.t) :
  BurstModeSiglent.value m = BurstModeSiglent.value m' -> m = m'.
Proof. destruct m, m'; intros H; first [reflexivity | discriminate H]. Qed.

(** Peel the common prefixes off an equation between two commands. *)
Ltac same_prefix H :=
  apply app_singleton_inv in H;
  repeat (apply (inj (String.app _)) in H).

Section Wire.
Context {RT : Runtime}.

(** The command of a call whose write is attempted: the one command on the
    trace afterwards. *)
Lemma attempt_reraise_sent (cmd dbg : string) (err : exn -> string) (w : world) :
  sent_by (try_except (bind (write cmd) (fun _ => logging_debug dbg))
             (fun e => bind (logging_error (err e)) (fun _ => raise e))) w =
  commands (trace w) ++ [cmd].
Proof.
  unfold sent_by. rewrite try_write_reraise.
  destruct (awg_write cmd (device w)) as [[e|] d]; cbn [snd trace];
    rewrite commands_app; reflexivity.
Qed.

Lemma attempt_swallow_sent (cmd dbg : string) (err : exn -> string) (w : world) :
  sent_by (try_except (bind (write cmd) (fun _ => logging_debug dbg))
             (fun e => logging_error (err e))) w =
  commands (trace w) ++ [cmd].
Proof.
  unfold sent_by. rewrite try_write_swallow.
  destruct (awg_write cmd (device w)) as [[e|] d]; cbn [snd trace];
    rewrite commands_app; reflexivity.
Qed.

(** X8. For an amplitude that passes the checks, the Siglent class sends
    the same command whatever the unit: the unit is checked but not sent, so
    an amplitude given in VRMS or DBM goes out as the bare number.  The
    Rigol class appends the unit, and its command tells the units apart. *)
Theorem amplitude_unit_on_the_wire
    (n : Z) (a : pyval) (u u' : AmplitudeUnit.t) (w : world) :
  n = 1 \/ n = 2 -> is_number a = true -> in_interval (-10) 10 a = true ->
  sent_by (SiglentSDG1000X.set_amplitude (PyInt n) a (PyAmplitudeUnit u)) w =
  sent_by (SiglentSDG1000X.set_amplitude (PyInt n) a (PyAmplitudeUnit u')) w
  /\
  (sent_by (RigolDG1000Z.set_amplitude (PyInt n) a (PyAmplitudeUnit u)) w =
   sent_by (RigolDG1000Z.set_amplitude (PyInt n) a (PyAmplitudeUnit u')) w ->
   u = u').
Proof.
  intros Hn Ha Hin.
  assert (Hok : invalid_channel (PyInt n) = false)
    by (destruct Hn as [-> | ->]; reflexivity).
  pose proof (is_number_checked a Ha) as Hty.
  pose proof (range_check (-10) 10 a Ha ltac:(lia) ltac:(lia)) as Hrange.
  unfold SiglentSDG1000X.set_amplitude, RigolDG1000Z.set_amplitude.
  rewrite Hok, Hty, Hrange, Hin. cbn [negb].
  rewrite !attempt_reraise_sent. split; [reflexivity | ].
  intros H. same_prefix H. apply AmplitudeUnit_value_inj, H.
Qed.

(** X9. The command of [set_waveform], [set_burst_trigger_source] and
    [set_burst_mode] tells the members of the enumeration apart: on the same
    valid channel two members are sent as the same command only if they are
    the same member. *)
Theorem symbolic_command_injective (v : vendor) (n : Z) (w : world) :
  n = 1 \/ n = 2 ->
  (forall t t',
   sent_by (invoke v (Set_waveform (PyInt n) (PyWaveformType t))) w =
   sent_by (invoke v (Set_waveform (PyInt n) (PyWaveformType t'))) w -> t = t')
  /\
  (forall s s',
   sent_by (invoke v (Set_burst_trigger_source (PyInt n) (PyBurstTriggerSource s))) w =
   sent_by (invoke v (Set_burst_trigger_source (PyInt n) (PyBurstTriggerSource s'))) w ->
   s = s')
  /\
  (forall m m',
   sent_by (RigolDG1000Z.set_burst_mode (PyInt n) (PyBurstModeRigol m)) w =
   sent_by (RigolDG1000Z.set_burst_mode (PyInt n) (PyBurstModeRigol m')) w -> m = m')
  /\
  (forall m m',
   sent_by (SiglentSDG1000X.set_burst_mode (PyInt n) (PyBurstModeSiglent m)) w =
   sent_by (SiglentSDG1000X.set_burst_mode (PyInt n) (PyBurstModeSiglent m')) w ->
   m = m').
Proof.
  intros Hn.
  assert (Hok : invalid_channel (PyInt n) = false)
    by (destruct Hn as [-> | ->]; reflexivity).
  split; [ | split; [ | split ] ].
  - intros t t'. destruct v; unfold_methods; rewrite Hok, !attempt_reraise_sent;
      intros H; same_prefix H; apply WaveformType_value_inj, H.
  - intros s s'. destruct v; unfold_methods; rewrite Hok, !attempt_swallow_sent;
      intros H; same_prefix H; apply BurstTriggerSource_value_inj, H.
  - intros m m'. unfold_methods. rewrite Hok, !attempt_swallow_sent.
    intros H. same_prefix H. apply BurstModeRigol_value_inj, H.
  - intros m m'. unfold_methods. rewrite Hok, !attempt_swallow_sent.
    intros H. same_prefix H. apply BurstModeSiglent_value_inj, H.
Qed.

End Wire.


(** ** More on the query parser *)

Lemma rstrip_append (c : ascii) (s : string) :
  free_of c s = true -> rstrip c (s +:+ String c "") = s.
Proof.
  induction s as [ | a s IH].
  { intros _. rewrite append_nil. cbn [rstrip]. rewrite Ascii.eqb_refl. reflexivity. }
  cbn [free_of]. intros H. apply andb_true_iff in H as [Ha Hs]. apply negb_true_iff in Ha.
  rewrite append_cons. cbn [rstrip]. rewrite (IH Hs), Ha. destruct s; reflexivity.
Qed.

(** A body between apostrophes is stripped back to the body. *)
Lemma strip_quoted (c : ascii) (s : string) :
  free_of c s = true -> strip c (String c (s +:+ String c "")) = s.
Proof.
  intros H. unfold strip. cbn [lstrip]. rewrite Ascii.eqb_refl.
  destruct s as [ | a s].
  - rewrite append_nil. cbn [lstrip rstrip]. rewrite Ascii.eqb_refl. reflexivity.
  - rewrite append_cons. cbn [lstrip].
    cbn [free_of] in H. pose proof H as H'.
    apply andb_true_iff in H' as [Ha _]. apply negb_true_iff in Ha. rewrite Ha.
    rewrite <- append_cons. apply rstrip_append. exact H.
Qed.

Lemma plain_fields (kvs : list (string * string)) (c : ascii) :
  Forall (fun kv => plain kv.1 = true /\ plain kv.2 = true) kvs ->
  (c = "," \/ c = " " \/ c = "'")%char ->
  Forall (fun s => free_of c s = true) (flat_map (fun kv => [kv.1; kv.2]) kvs).
Proof.
  intros Hkvs Hc. induction Hkvs as [ | [k v] kvs [Hk Hv] _ IH]; cbn; [constructor | ].
  unfold plain in Hk, Hv.
  apply andb_true_iff in Hk as [Hk Hk3]. apply andb_true_iff in Hk as [Hk1 Hk2].
  apply andb_true_iff in Hv as [Hv Hv3]. apply andb_true_iff in Hv as [Hv1 Hv2].
  destruct Hc as [-> | [-> | ->]]; repeat constructor; assumption.
Qed.

Lemma body_free (kvs : list (string * string)) (c : ascii) :
  Forall (fun kv => plain kv.1 = true /\ plain kv.2 = true) kvs ->
  (c = " " \/ c = "'")%char -> free_of c (response_body kvs) = true.
Proof.
  intros Hkvs Hc. apply free_of_join.
  - destruct Hc as [-> | ->]; reflexivity.
  - apply plain_fields; [assumption | tauto].
Qed.

(** The fields of a well-formed body, read back pair by pair *)
Lemma body_lookup (kvs : list (string * string)) (key : string) :
  Forall (fun kv => plain kv.1 = true /\ plain kv.2 = true) kvs ->
  let fields := split ","%char (response_body kvs) in
  dict (zip (evens fields) (odds fields)) !! key = value_of key kvs.
Proof.
  intros Hkvs. cbv zeta. destruct kvs as [ | kv kvs]; [reflexivity | ].
  unfold response_body.
  rewrite split_join; [ | destruct kv; discriminate | apply plain_fields; auto].
  rewrite evens_fields, odds_fields, zip_fst_snd. apply dict_lookup.
Qed.




Section Query.
Context {RT : Runtime}.

(** Once the reply has a second token, a supported name is answered from
    the pairs of that token. *)
Lemma parameter_read
    (ch : pyval) (name key reply first response : string) (rest : list string)
    (d : conn) (w : world) :
  awg_query ("C" +:+ py_str ch +:+ "BSWV?") (device w) = (inr reply, d) ->
  split " "%char reply = first :: response :: rest ->
  In (name, key) supported_parameters ->
  SiglentSDG1000X.get_channel_wave_parameter ch name w =
    (Return (let fields := split ","%char (strip "'"%char response) in
             dict_get (dict (zip (evens fields) (odds fields))) key),
     World d (trace w ++ [Query ("C" +:+ py_str ch +:+ "BSWV?")])).
Proof.
  intros Hq Hsplit Hin.
  unfold SiglentSDG1000X.get_channel_wave_parameter, try_except, bind, query.
  rewrite Hq. cbv beta iota zeta. rewrite Hsplit. cbv beta iota zeta.
  cbn [supported_parameters In] in Hin.
  repeat (destruct Hin as [[= <- <-] | Hin]; [reflexivity | ]).
  destruct Hin.
Qed.

(** X10. When the query itself fails, [get_channel_wave_parameter] logs the
    failure and hands the transport's exception on to the caller: one query
    and one error record are on the trace. *)
Theorem query_failure_propagates
    (ch : pyval) (parameter : string) (e : exn) (d : conn) (w : world) :
  awg_query ("C" +:+ py_str ch +:+ "BSWV?") (device w) = (inl e, d) ->
  SiglentSDG1000X.get_channel_wave_parameter ch parameter w =
    (Raise e,
     World d (trace w ++
       [Query ("C" +:+ py_str ch +:+ "BSWV?");
        LogError ("Failed to retrieve parameter and/or its value: " +:+ exn_str e)])).
Proof.
  intros Hq.
  unfold SiglentSDG1000X.get_channel_wave_parameter, try_except, bind, query.
  rewrite Hq. cbv beta iota zeta.
  unfold raise, logging_error, emit. cbn [trace device].
  rewrite <- app_assoc. reflexivity.
Qed.

(** X11. A reply without a space in it, the empty reply included, has no
    second token: [get_channel_wave_parameter] logs the failure and raises
    [IndexError], whatever the parameter asked for. *)
Theorem reply_without_space
    (ch : pyval) (parameter reply : string) (d : conn) (w : world) :
  awg_query ("C" +:+ py_str ch +:+ "BSWV?") (device w) = (inr reply, d) ->
  free_of " "%char reply = true ->
  SiglentSDG1000X.get_channel_wave_parameter ch parameter w =
    (Raise (IndexError "list index out of range"),
     World d (trace w ++
       [Query ("C" +:+ py_str ch +:+ "BSWV?");
        LogError ("Failed to retrieve parameter and/or its value: "
                  +:+ exn_str (IndexError "list index out of range"))])).
Proof.
  intros Hq Hfree.
  unfold SiglentSDG1000X.get_channel_wave_parameter, try_except, bind, query.
  rewrite Hq. cbv beta iota zeta. rewrite (split_free _ _ Hfree). cbv beta iota zeta.
  unfold raise, logging_error, emit. cbn [trace device].
  rewrite <- app_assoc. reflexivity.
Qed.

(** X12. A body that comes between apostrophes is read like the bare body:
    the apostrophes around it are stripped before it is split. *)
Theorem quoted_response
    (ch : pyval) (hdr : string) (kvs : list (string * string)) (d : conn) (w : world)
    (name key : string) :
  free_of " "%char hdr = true ->
  Forall (fun kv => plain kv.1 = true /\ plain kv.2 = true) kvs ->
  awg_query ("C" +:+ py_str ch +:+ "BSWV?") (device w) =
    (inr (hdr +:+ " '" +:+ response_body kvs +:+ "'"), d) ->
  In (name, key) supported_parameters ->
  SiglentSDG1000X.get_channel_wave_parameter ch name w =
    (Return match value_of key kvs with
            | Some v => PyStr v
            | None => PyNone
            end,
     World d (trace w ++ [Query ("C" +:+ py_str ch +:+ "BSWV?")])).
Proof.
  intros Hhdr Hkvs Hq Hin.
  pose proof (body_free kvs " "%char Hkvs ltac:(tauto)) as Hbody.
  change (hdr +:+ " '" +:+ response_body kvs +:+ "'")
    with (hdr +:+ String " "%char (String "'"%char (response_body kvs +:+ String "'"%char "")))
    in Hq.
  rewrite (parameter_read ch name key _ hdr
             (String "'"%char (response_body kvs +:+ String "'"%char "")) [] d w Hq);
    [ | | exact Hin].
  - cbv zeta. rewrite strip_quoted by (apply body_free; [assumption | tauto]).
    unfold dict_get. rewrite (body_lookup kvs key Hkvs). reflexivity.
  - rewrite split_append by assumption. f_equal. apply split_free.
    cbn [free_of]. rewrite free_of_append, Hbody. reflexivity.
Qed.

(** X13. Only the second token of the reply is read: whatever follows a
    further space is ignored. *)
Theorem trailing_tokens_ignored
    (ch : pyval) (hdr more : string) (kvs : list (string * string)) (d : conn) (w : world)
    (name key : string) :
  free_of " "%char hdr = true ->
  Forall (fun kv => plain kv.1 = true /\ plain kv.2 = true) kvs ->
  awg_query ("C" +:+ py_str ch +:+ "BSWV?") (device w) =
    (inr (hdr +:+ " " +:+ response_body kvs +:+ " " +:+ more), d) ->
  In (name, key) supported_parameters ->
  SiglentSDG1000X.get_channel_wave_parameter ch name w =
    (Return match value_of key kvs with
            | Some v => PyStr v
            | None => PyNone
            end,
     World d (trace w ++ [Query ("C" +:+ py_str ch +:+ "BSWV?")])).
Proof.
  intros Hhdr Hkvs Hq Hin.
  pose proof (body_free kvs " "%char Hkvs ltac:(tauto)) as Hbody.
  change (hdr +:+ " " +:+ response_body kvs +:+ " " +:+ more)
    with (hdr +:+ String " "%char (response_body kvs +:+ String " "%char more)) in Hq.
  assert (Hsplit : split " "%char
            (hdr +:+ String " "%char (response_body kvs +:+ String " "%char more)) =
          hdr :: response_body kvs :: split " "%char more).
  { rewrite split_append by assumption. rewrite split_append by assumption. reflexivity. }
  rewrite (parameter_read ch name key _ hdr (response_body kvs) _ d w Hq Hsplit Hin).
  cbv zeta. rewrite strip_free by (apply body_free; [assumption | tauto]).
  unfold dict_get. rewrite (body_lookup kvs key Hkvs). reflexivity.
Qed.



End Query.


(** ** The further properties at work *)


Lemma non_number_rejected_witness :
  (channel_of (Set_frequency (PyInt 1) (PyStr "50") PyNone) = PyInt 1 \/
   channel_of (Set_frequency (PyInt 1) (PyStr "50") PyNone) = PyInt 2) /\
  numeric_argument (Set_frequency (PyInt 1) (PyStr "50") PyNone) =
    Some ("frequency", PyStr "50") /\
  invoke (RT := good_link) Siglent (Set_frequency (PyInt 1) (PyStr "50") PyNone)
      (start good_link tt) =
    (Raise (TypeError "'frequency' must be float or int; received <class 'str'>"),
     start good_link tt).
Proof.
  split; [left; reflexivity | split; [reflexivity | ] ].
  apply (non_number_rejected (RT := good_link) Siglent
           (Set_frequency (PyInt 1) (PyStr "50") PyNone) "frequency" (PyStr "50")
           (start good_link tt));
    [left; reflexivity | reflexivity | discriminate | discriminate].
Defined.

Lemma state_must_be_bool_witness :
  (1 = 1 \/ 1 = 2) /\
  invoke (RT := good_link) Rigol (Set_output (PyInt 1) (PyInt 1)) (start good_link tt) =
    (Raise (TypeError "'state' must be bool; received <class 'int'>"), start good_link tt) /\
  sent_by (invoke (RT := good_link) Siglent (Set_burst_state (PyInt 1) (PyBool false)))
    (start good_link tt) = ["C1:BTWV STATE,OFF"].
Proof.
  split; [left; reflexivity | ].
  split.
  - apply (proj1 (state_must_be_bool (RT := good_link) Rigol 1 (PyInt 1)
                    (start good_link tt) (or_introl eq_refl))).
    discriminate.
  - apply (proj2 (state_must_be_bool (RT := good_link) Siglent 1 (PyBool false)
                    (start good_link tt) (or_introl eq_refl)) false eq_refl).
Defined.




Lemma phase_accepts_negative_witness :
  (1 = 1 \/ 1 = 2) /\ is_number (PyInt (-360)) = true /\
  in_interval (-360) 360 (PyInt (-360)) = true /\
  sent_by (invoke (RT := good_link) Rigol (Set_phase (PyInt 1) (PyInt (-360))))
    (start good_link tt) = ["SOUR1:PHAS -360"].
Proof.
  split; [left; reflexivity | split; [reflexivity | split; [reflexivity | ] ] ].
  apply (proj2 (phase_accepts_negative (RT := good_link) Rigol 1 (PyInt (-360))
                  (start good_link tt) (or_introl eq_refl) eq_refl)).
  reflexivity.
Defined.

Lemma amplitude_unit_on_the_wire_witness :
  (1 = 1 \/ 1 = 2) /\ is_number (PyInt 3) = true /\
  in_interval (-10) 10 (PyInt 3) = true /\
  sent_by (SiglentSDG1000X.set_amplitude (RT := good_link) (PyInt 1) (PyInt 3)
             (PyAmplitudeUnit AmplitudeUnit.VPP)) (start good_link tt) =
  sent_by (SiglentSDG1000X.set_amplitude (RT := good_link) (PyInt 1) (PyInt 3)
             (PyAmplitudeUnit AmplitudeUnit.DBM)) (start good_link tt).
Proof.
  split; [left; reflexivity | split; [reflexivity | split; [reflexivity | ] ] ].
  apply (proj1 (amplitude_unit_on_the_wire (RT := good_link) 1 (PyInt 3)
                  AmplitudeUnit.VPP AmplitudeUnit.DBM (start good_link tt)
                  (or_introl eq_refl) eq_refl eq_refl)).
Defined.

Lemma symbolic_command_injective_witness :
  (1 = 1 \/ 1 = 2) /\
  (sent_by (invoke (RT := good_link) Rigol
              (Set_waveform (PyInt 1) (PyWaveformType WaveformType.SINE)))
     (start good_link tt) =
   sent_by (invoke (RT := good_link) Rigol
              (Set_waveform (PyInt 1) (PyWaveformType WaveformType.SINE)))
     (start good_link tt) ->
   WaveformType.SINE = WaveformType.SINE).
Proof.
  split; [left; reflexivity | ].
  apply (proj1 (symbolic_command_injective (RT := good_link) Rigol 1 (start good_link tt)
                  (or_introl eq_refl))).
Defined.

Lemma query_failure_propagates_witness :
  awg_query (Runtime := dead_link) "C1BSWV?" tt = (inl timeout, tt) /\
  SiglentSDG1000X.get_channel_wave_parameter (RT := dead_link) (PyInt 1) "frequency"
      (start dead_link tt) =
    (Raise timeout,
     World (RT := dead_link) tt
       [Query "C1BSWV?";
        LogError "Failed to retrieve parameter and/or its value: timeout"]).
Proof.
  split; [reflexivity | ].
  apply (query_failure_propagates (RT := dead_link) (PyInt 1) "frequency" timeout tt
           (start dead_link tt)).
  reflexivity.
Defined.

Lemma reply_without_space_witness :
  awg_query (Runtime := echo_link "") "C1BSWV?" tt = (inr "", tt) /\
  free_of " "%char "" = true /\
  SiglentSDG1000X.get_channel_wave_parameter (RT := echo_link "") (PyInt 1) "frequency"
      (start (echo_link "") tt) =
    (Raise (IndexError "list index out of range"),
     World (RT := echo_link "") tt
       [Query "C1BSWV?";
        LogError "Failed to retrieve parameter and/or its value: list index out of range"]).
Proof.
  split; [reflexivity | split; [reflexivity | ] ].
  apply (reply_without_space (RT := echo_link "") (PyInt 1) "frequency" "" tt
           (start (echo_link "") tt)); reflexivity.
Defined.

Lemma sample_pairs_plain :
  Forall (fun kv => plain kv.1 = true /\ plain kv.2 = true) sample_pairs.
Proof. repeat constructor. Defined.

Lemma quoted_response_witness :
  let reply := "C1:BSWV 'WVTP,SINE,FRQ,1000HZ,PERI,0.001S,AMP,4V,OFST,0V,HLEV,2V,LLEV,-2V'" in
  free_of " "%char "C1:BSWV" = true /\
  awg_query (Runtime := echo_link reply) "C1BSWV?" tt =
    (inr ("C1:BSWV" +:+ " '" +:+ response_body sample_pairs +:+ "'"), tt) /\
  In ("frequency", "FRQ") supported_parameters /\
  SiglentSDG1000X.get_channel_wave_parameter (RT := echo_link reply) (PyInt 1) "frequency"
      (start (echo_link reply) tt) =
    (Return (PyStr "1000HZ"), World (RT := echo_link reply) tt [Query "C1BSWV?"]).
Proof.
  cbv zeta.
  split; [reflexivity | split; [reflexivity | split; [cbn; tauto | ] ] ].
  apply (quoted_response (RT := echo_link _) (PyInt 1) "C1:BSWV" sample_pairs tt
           (start (echo_link _) tt) "frequency" "FRQ" eq_refl sample_pairs_plain eq_refl).
  cbn; tauto.
Defined.

Lemma trailing_tokens_ignored_witness :
  let reply := "C1:BSWV WVTP,SINE,FRQ,1000HZ,PERI,0.001S,AMP,4V,OFST,0V,HLEV,2V,LLEV,-2V and more" in
  free_of " "%char "C1:BSWV" = true /\
  awg_query (Runtime := echo_link reply) "C1BSWV?" tt =
    (inr ("C1:BSWV" +:+ " " +:+ response_body sample_pairs +:+ " " +:+ "and more"), tt) /\
  SiglentSDG1000X.get_channel_wave_parameter (RT := echo_link reply) (PyInt 1) "low_level"
      (start (echo_link reply) tt) =
    (Return (PyStr "-2V"), World (RT := echo_link reply) tt [Query "C1BSWV?"]).
Proof.
  cbv zeta.
  split; [reflexivity | split; [reflexivity | ] ].
  apply (trailing_tokens_ignored (RT := echo_link _) (PyInt 1) "C1:BSWV" "and more"
           sample_pairs tt (start (echo_link _) tt) "low_level" "LLEV"
           eq_refl sample_pairs_plain eq_refl).
  cbn; tauto.
Defined.

